(** * AIESEC Exchange Analytics dashboard (streamlit_app.py)

    A shallow embedding of the dashboard script: the query parameters it
    builds, the cached fetch, the flattening of the analytics payload into
    funnel rows, and the pivot, funnel steps and metrics computed from them.

    Python values are modelled dynamically, as the script meets them: a JSON
    document is a tagged value, and the operations [in], [x[k]] and [for]
    raise [TypeError] or [KeyError] where Python does. *)

From Stdlib Require Import Ascii QArith.
From stdpp Require Import gmap strings list fin_maps pretty.

Local Open Scope string_scope.
Local Open Scope list_scope.
Local Open Scope Z_scope.

(** ** Python exceptions and results *)

Inductive exn :=
  | KeyError (k : string)
  | TypeError
  | ValueError
  | IndexError
  | ZeroDivisionError
  | JSONDecodeError.

Inductive res (A : Type) :=
  | Ok (a : A)
  | Raise (e : exn).
Arguments Ok {A} a.
Arguments Raise {A} e.

Global Instance res_ret : MRet res := λ A a, Ok a.
Global Instance res_bind : MBind res := λ A B f m,
  match m with
  | Ok a => f a
  | Raise e => Raise e
  end.

(** ** JSON documents, as [response.json()] returns them *)

#[local] Set Warnings "-register-all".

Inductive json :=
  | JNull
  | JBool (b : bool)
  | JInt (n : Z)
  | JFloat (m e : Z)            (* the decimal literal m * 10^e *)
  | JStr (s : string)
  | JArr (l : list json)
  | JObj (o : gmap string json).

(** [needle in haystack] on two Python strings. *)
Fixpoint is_infix (needle hay : string) : bool :=
  String.prefix needle hay ||
  match hay with
  | EmptyString => false
  | String _ hay' => is_infix needle hay'
  end.

Definition is_str (k : string) (j : json) : bool :=
  match j with
  | JStr s => String.eqb k s
  | _ => false
  end.

(** [k in c] for a string [k]: key membership on a dict, element membership
    on a list, substring on a string, [TypeError] on anything else. *)
Definition py_in (k : string) (c : json) : res bool :=
  match c with
  | JObj o => Ok (bool_decide (is_Some (o !! k)))
  | JArr l => Ok (existsb (is_str k) l)
  | JStr s => Ok (is_infix k s)
  | _ => Raise TypeError
  end.

(** [c[k]] for a string [k]: only a dict can be indexed by a string. *)
Definition py_getitem (c : json) (k : string) : res json :=
  match c with
  | JObj o =>
      match o !! k with
      | Some v => Ok v
      | None => Raise (KeyError k)
      end
  | _ => Raise TypeError
  end.

Fixpoint chars (s : string) : list json :=
  match s with
  | EmptyString => []
  | String a s' => JStr (String a EmptyString) :: chars s'
  end.

(** The values [for b in c] goes through: the elements of a list, the keys
    of a dict, the characters of a string. The keys of a dict come in the
    map's order; the script only ever indexes what it iterates, and a key,
    being a string, cannot be indexed, whichever comes first. *)
Definition py_iter (c : json) : res (list json) :=
  match c with
  | JArr l => Ok l
  | JObj o => Ok (JStr <$> (map_to_list o).*1)
  | JStr s => Ok (chars s)
  | _ => Raise TypeError
  end.

(** ** Timestamps and funnel rows *)

Record Timestamp := {
  year : Z; month : Z; day : Z;
  hour : Z; minute : Z; second : Z;
  utc : bool
}.

Global Instance Timestamp_eq_dec : EqDecision Timestamp.
Proof. solve_decision. Defined.

Global Instance Timestamp_countable : Countable Timestamp.
Proof.
  apply (inj_countable'
    (λ t, (year t, month t, day t, hour t, minute t, second t, utc t))
    (λ p, let '(y, mo, d, h, mi, s, u) := p in
          {| year := y; month := mo; day := d;
             hour := h; minute := mi; second := s; utc := u |})).
  by intros [].
Defined.

(** One row of the frame built at the end of [fetch_exchange_data]. *)
Record FunnelRow := {
  date : Timestamp;
  status : string;
  count : json
}.

Abbreviation DataFrame := (list FunnelRow).

(** ** The normalizer: the loop over [STATUS_MAP] in [fetch_exchange_data] *)

Definition STATUS_MAP : list (string * string) :=
  [ ("total_applications", "Applied");
    ("total_an_accepted", "Accepted");
    ("total_approvals", "Approved");
    ("total_realized", "Realized");
    ("total_finished", "Finished");
    ("total_completed", "Completed") ].

Definition parent_key (key : string) : string :=
  if String.eqb key "total_signup" then "people" else "applications".

Section Normalizer.
(** [pd.to_datetime], applied to a bucket's [key_as_string]. *)
Variable to_datetime : json → res Timestamp.

(** The dict appended for one bucket [b]. *)
Definition bucket_row (label : string) (b : json) : res FunnelRow :=
  k ← py_getitem b "key_as_string";
  d ← to_datetime k;
  c ← py_getitem b "doc_count";
  Ok {| date := d; status := label; count := c |}.

(** [for b in buckets: rows.append(...)] *)
Fixpoint append_buckets (label : string) (buckets : list json)
    (rows : DataFrame) : res DataFrame :=
  match buckets with
  | [] => Ok rows
  | b :: buckets' =>
      r ← bucket_row label b;
      append_buckets label buckets' (rows ++ [r])
  end.

(** One iteration of [for key, label in STATUS_MAP.items()]. *)
Definition stage_step (data : json) (key label : string)
    (rows : DataFrame) : res DataFrame :=
  present ← py_in key data;
  if negb present then Ok rows else
  stage ← py_getitem data key;
  has_parent ← py_in (parent_key key) stage;
  if negb has_parent then Ok rows else
  parent ← py_getitem stage (parent_key key);
  has_buckets ← py_in "buckets" parent;
  if negb has_buckets then Ok rows else
  buckets ← py_getitem parent "buckets";
  bs ← py_iter buckets;
  append_buckets label bs rows.

Fixpoint stage_loop (data : json) (stages : list (string * string))
    (rows : DataFrame) : res DataFrame :=
  match stages with
  | [] => Ok rows
  | (key, label) :: stages' =>
      rows' ← stage_step data key label rows;
      stage_loop data stages' rows'
  end.

(** [rows = []; for ...; df = pd.DataFrame(rows)] *)
Definition normalize (data : json) : res DataFrame :=
  stage_loop data STATUS_MAP [].
End Normalizer.

(** The buckets one stage contributes, in the order the loop meets them:
    none when the stage is skipped. *)
Definition stage_buckets (data : json) (key : string) : res (list json) :=
  present ← py_in key data;
  if negb present then Ok [] else
  stage ← py_getitem data key;
  has_parent ← py_in (parent_key key) stage;
  if negb has_parent then Ok [] else
  parent ← py_getitem stage (parent_key key);
  has_buckets ← py_in "buckets" parent;
  if negb has_buckets then Ok [] else
  buckets ← py_getitem parent "buckets";
  py_iter buckets.

(** A stage with missing data: its key is absent from the payload, or its
    sub-object is absent from the stage object, or that sub-object has no
    ["buckets"] entry. *)
Definition stage_missing (data : json) (key : string) : Prop :=
  ∃ o, data = JObj o ∧
    (o !! key = None ∨
     ∃ s, o !! key = Some (JObj s) ∧
       (s !! parent_key key = None ∨
        ∃ a, s !! parent_key key = Some (JObj a) ∧ a !! "buckets" = None)).

(** A stage with a null where data is expected: the stage's value, or its
    sub-object, or the sub-object's ["buckets"] entry is there and is
    [null]. *)
Definition stage_null (data : json) (key : string) : Prop :=
  ∃ o, data = JObj o ∧
    (o !! key = Some JNull ∨
     ∃ s, o !! key = Some (JObj s) ∧
       (s !! parent_key key = Some JNull ∨
        ∃ a, s !! parent_key key = Some (JObj a) ∧
             a !! "buckets" = Some JNull)).

(** ** Builtins the script calls *)

(** [int(s)] on a [str], as CPython reads it. A Python string is a
    sequence of code points; here it is held as its UTF-8 bytes, which
    [code_points] reads back (bytes that are not UTF-8 stand for no Python
    string and give no code points). *)
Definition continuation (b : N) : bool := ((128 <=? b) && (b <? 192))%N.

Fixpoint utf8_decode (bs : list N) : option (list N) :=
  match bs with
  | [] => Some []
  | b0 :: bs1 =>
      if (b0 <? 128)%N then cons b0 <$> utf8_decode bs1
      else if (b0 <? 194)%N then None
      else if (b0 <? 224)%N then
        match bs1 with
        | b1 :: bs2 =>
            if continuation b1
            then cons ((b0 - 192) * 64 + (b1 - 128))%N <$> utf8_decode bs2
            else None
        | _ => None
        end
      else if (b0 <? 240)%N then
        match bs1 with
        | b1 :: b2 :: bs3 =>
            let c := ((b0 - 224) * 4096 + (b1 - 128) * 64 + (b2 - 128))%N in
            if continuation b1 && continuation b2 && (2048 <=? c)%N
               && negb ((55296 <=? c) && (c <? 57344))%N
            then cons c <$> utf8_decode bs3
            else None
        | _ => None
        end
      else if (b0 <? 245)%N then
        match bs1 with
        | b1 :: b2 :: b3 :: bs4 =>
            let c := ((b0 - 240) * 262144 + (b1 - 128) * 4096
                      + (b2 - 128) * 64 + (b3 - 128))%N in
            if continuation b1 && continuation b2 && continuation b3
               && (65536 <=? c)%N && (c <? 1114112)%N
            then cons c <$> utf8_decode bs4
            else None
        | _ => None
        end
      else None
  end.

Definition code_points (s : string) : option (list N) :=
  utf8_decode (N_of_ascii <$> String.list_ascii_of_string s).

(** What [int] asks of the interpreter's Unicode database: whether a code
    point is whitespace, and its value when it is a decimal digit. *)
Record UnicodeData := {
  unicode_isspace : N → bool;
  unicode_todecimal : N → option N
}.

(** The text is first rewritten to ASCII. A text that is all ASCII is taken
    as it is. Otherwise a code point below 127 is kept, whitespace becomes a
    space, a decimal digit becomes its ASCII digit, and anything else ends
    the conversion with a [ValueError]. *)
Definition to_ascii (db : UnicodeData) (ch : N) : option N :=
  if (ch <? 127)%N then Some ch
  else if unicode_isspace db ch then Some 32%N
  else (λ decimal, 48 + decimal)%N <$> unicode_todecimal db ch.

Definition transform_decimal_and_space_to_ascii (db : UnicodeData)
    (text : list N) : option (list N) :=
  if forallb (λ ch, ch <? 128)%N text then Some text
  else mapM (to_ascii db) text.

(** The ASCII text is then read in base 10: C whitespace (tab, LF, VT, FF,
    CR, space) at both ends, an optional sign, then decimal digits with
    single underscores allowed between two digits. More digits than
    [max_str_digits], the interpreter's default limit, are refused. *)
Definition Py_ISSPACE (c : N) : bool :=
  ((c =? 32) || (9 <=? c) && (c <=? 13))%N.

Definition int_digit (c : N) : option Z :=
  if ((48 <=? c) && (c <=? 57))%N then Some (Z.of_N c - 48) else None.

Fixpoint lstrip (l : list N) : list N :=
  match l with
  | c :: l' => if Py_ISSPACE c then lstrip l' else l
  | [] => []
  end.

Definition strip (l : list N) : list N :=
  reverse (lstrip (reverse (lstrip l))).

(** [acc] is the value read so far and [digits] the number of digits read;
    [after_digit] tells whether the previous character was a digit, which is
    where an underscore or the end may come. *)
Fixpoint int_digits (l : list N) (acc : Z) (digits : nat)
    (after_digit : bool) : option (Z * nat) :=
  match l with
  | [] => if after_digit then Some (acc, digits) else None
  | c :: l' =>
      match int_digit c with
      | Some d => int_digits l' (10 * acc + d) (S digits) true
      | None =>
          if (c =? 95)%N && after_digit then int_digits l' acc digits false
          else None
      end
  end.

Definition max_str_digits : nat := 4300.

Definition long_from_string (l : list N) : option Z :=
  let '(sign, l) :=
    match strip l with
    | c :: l' =>
        if (c =? 43)%N then (1, l')
        else if (c =? 45)%N then (-1, l')
        else (1, c :: l')
    | [] => (1, [])
    end in
  '(z, digits) ← int_digits l 0 0 false;
  if (digits <=? max_str_digits)%nat then Some (sign * z) else None.

(** [None] is the [ValueError] that the script's bare [except] catches. *)
Definition py_int (db : UnicodeData) (s : string) : option Z :=
  text ← code_points s;
  ascii ← transform_decimal_and_space_to_ascii db text;
  long_from_string ascii.

(** The database of Unicode 14.0, which Python 3.11 carries: the whitespace
    code points, and the code points of the digit zero of each of its 66
    decimal systems, the other nine digits following each. *)
Definition decimal_zeros : list N :=
  [48; 1632; 1776; 1984; 2406; 2534; 2662; 2790; 2918; 3046; 3174; 3302;
   3430; 3558; 3664; 3792; 3872; 4160; 4240; 6112; 6160; 6470; 6608; 6784;
   6800; 6992; 7088; 7232; 7248; 42528; 43216; 43264; 43472; 43504; 43600;
   44016; 65296; 66720; 68912; 69734; 69872; 69942; 70096; 70384; 70736;
   70864; 71248; 71360; 71472; 71904; 72016; 72784; 73040; 73120; 92768;
   92864; 93008; 120782; 120792; 120802; 120812; 120822; 123200; 123632;
   125264; 130032]%N.

Definition unicode_14 : UnicodeData :=
  {| unicode_isspace ch :=
       Py_ISSPACE ch || ((28 <=? ch) && (ch <=? 31))%N
       || bool_decide (ch ∈ [133; 160; 5760; 8232; 8233; 8239; 8287; 12288]%N)
       || ((8192 <=? ch) && (ch <=? 8202))%N;
     unicode_todecimal ch :=
       (λ zero, ch - zero)%N <$>
         head (filter (λ zero, zero ≤ ch < zero + 10)%N decimal_zeros) |}.

(** Decimal digits of ASCII text, for the date parser below. *)
Definition digit_val (a : ascii) : option Z :=
  let n := nat_of_ascii a in
  if ((48 <=? n) && (n <=? 57))%nat then Some (Z.of_nat n - 48) else None.

(** [datetime.date] and its [isoformat()]. *)
Record Date := { dyear : Z; dmonth : Z; dday : Z }.

Global Instance Date_eq_dec : EqDecision Date.
Proof. solve_decision. Defined.

Global Instance Date_countable : Countable Date.
Proof.
  apply (inj_countable' (λ d, (dyear d, dmonth d, dday d))
    (λ p, let '(y, m, d) := p in {| dyear := y; dmonth := m; dday := d |})).
  by intros [].
Defined.

(** [s] with zeros in front up to [width] characters, as the format
    [%04d] writes a year and [%02d] a month or a day. *)
Definition zero_pad (width : nat) (s : string) : string :=
  String.string_of_list_ascii (replicate (width - String.length s) "0"%char)
  +:+ s.

Definition isoformat (d : Date) : string :=
  zero_pad 4 (pretty (dyear d)) +:+ "-" +:+
  zero_pad 2 (pretty (dmonth d)) +:+ "-" +:+
  zero_pad 2 (pretty (dday d)).

(** [pd.to_datetime] on the timestamps the API sends: [YYYY-MM-DD], alone or
    followed by [T] or a space and [HH:MM:SS], with an optional final [Z].
    Used where a concrete parser is needed; the normalizer itself is stated
    for any parser. *)
Definition two_digits (a b : ascii) : option Z :=
  x ← digit_val a; y ← digit_val b; Some (10 * x + y).

Definition is_leap (y : Z) : bool :=
  (y mod 4 =? 0) && (negb (y mod 100 =? 0) || (y mod 400 =? 0)).

Definition days_in_month (y m : Z) : Z :=
  if m =? 2 then (if is_leap y then 29 else 28)
  else if bool_decide (m ∈ [4; 6; 9; 11]) then 30 else 31.

Definition parse_date (l : list ascii) : option (Z * Z * Z) :=
  match l with
  | [y1; y2; y3; y4; "-"; m1; m2; "-"; d1; d2]%char =>
      yh ← two_digits y1 y2; yl ← two_digits y3 y4;
      m ← two_digits m1 m2; d ← two_digits d1 d2;
      let y := 100 * yh + yl in
      if (1 <=? y) && (1 <=? m) && (m <=? 12) && (1 <=? d)
         && (d <=? days_in_month y m)
      then Some (y, m, d) else None
  | _ => None
  end.

Definition parse_time (l : list ascii) : option (Z * Z * Z) :=
  match l with
  | [h1; h2; ":"; m1; m2; ":"; s1; s2]%char =>
      h ← two_digits h1 h2; m ← two_digits m1 m2; s ← two_digits s1 s2;
      if (h <? 24) && (m <? 60) && (s <? 60) then Some (h, m, s) else None
  | _ => None
  end.

Definition parse_iso8601 (s : string) : option Timestamp :=
  let l := String.list_ascii_of_string s in
  '(y, mo, d) ← parse_date (take 10 l);
  match drop 10 l with
  | [] => Some {| year := y; month := mo; day := d;
                  hour := 0; minute := 0; second := 0; utc := false |}
  | sep :: rest =>
      if Ascii.eqb sep "T" || Ascii.eqb sep " " then
        '(h, mi, sec) ← parse_time (take 8 rest);
        match drop 8 rest with
        | [] => Some {| year := y; month := mo; day := d;
                        hour := h; minute := mi; second := sec; utc := false |}
        | ["Z"%char] =>
            Some {| year := y; month := mo; day := d;
                    hour := h; minute := mi; second := sec; utc := true |}
        | _ => None
        end
      else None
  end.

Definition to_datetime_iso (j : json) : res Timestamp :=
  match j with
  | JStr s =>
      match parse_iso8601 s with
      | Some t => Ok t
      | None => Raise ValueError
      end
  | _ => Raise TypeError
  end.

(** ** Query parameters: the [params] dict of [fetch_exchange_data] *)

Inductive pval :=
  | PStr (s : string)
  | PInt (n : Z)
  | PNone
  | PList (l : list Z).

Definition exchange_type_map : gmap string string :=
  {[ "Outgoing" := "person"; "Incoming" := "opportunity" ]}.

Definition programme_map : gmap string Z :=
  {[ "Global Volunteer" := 6; "Global Talent" := 7; "Global Teacher" := 8 ]}.

(** [d[k]] on a Python dict. *)
Definition dict_get {V} (d : gmap string V) (k : string) : res V :=
  match d !! k with
  | Some v => Ok v
  | None => Raise (KeyError k)
  end.

(** [params.setdefault(k, []).append(x)]: the list stored under [k] is
    created on first use and extended in place. *)
Definition setdefault_append (k : string) (x : Z)
    (params : gmap string pval) : res (gmap string pval) :=
  match params !! k with
  | None => Ok (<[k := PList [x]]> params)
  | Some (PList l) => Ok (<[k := PList (l ++ [x])]> params)
  | Some _ => Raise TypeError
  end.

(** [for prog in programmes: params.setdefault(...).append(programme_map[prog])] *)
Fixpoint add_programmes (programmes : list string)
    (params : gmap string pval) : res (gmap string pval) :=
  match programmes with
  | [] => Ok params
  | prog :: programmes' =>
      code ← dict_get programme_map prog;
      params' ← setdefault_append "programmes[]" code params;
      add_programmes programmes' params'
  end.

Definition office_param (office_id : option Z) : pval :=
  match office_id with
  | Some n => PInt n
  | None => PNone
  end.

Definition build_params (token exchange_type : string)
    (programmes : list string) (start_date end_date : Date)
    (interval : string) (office_id : option Z) : res (gmap string pval) :=
  histogram_type ← dict_get exchange_type_map exchange_type;
  exchange ← dict_get exchange_type_map exchange_type;
  let params : gmap string pval :=
    <["access_token" := PStr token]>
    (<["histogram[office_id]" := office_param office_id]>
    (<["exchange_type" := PStr exchange]>
    (<["histogram[interval]" := PStr interval]>
    (<["histogram[type]" := PStr histogram_type]>
    (<["end_date" := PStr (isoformat end_date)]>
    (<["start_date" := PStr (isoformat start_date)]> ∅)))))) in
  add_programmes programmes params.

(** ** The aggregator: pivot, funnel steps, metrics *)

(** [df.pivot(index="date", columns="status", values="count")]: the cells
    that hold a value, keyed by (date, status). The index is the set of
    dates and the columns the set of statuses that occur; a cell of that
    grid with no row is NaN, and 0 after [fillna(0)]. pandas refuses to
    reshape when two rows fall into one cell.

    A number stands for its value: whether pandas holds a column as int64
    or as float64 (as it does once the grid has a missing cell) is not
    tracked. The two agree with the value as long as the magnitudes stay
    within [2^53], see [exact_counts]. *)
Abbreviation PivotTable := (gmap (Timestamp * string) json).

Definition pivot_key (r : FunnelRow) : Timestamp * string := (date r, status r).

Definition pivot (df : DataFrame) : res PivotTable :=
  if bool_decide (NoDup (pivot_key <$> df))
  then Ok (list_to_map ((λ r, (pivot_key r, count r)) <$> df))
  else Raise ValueError.

Definition index (p : PivotTable) : gset Timestamp := set_map fst (dom p).
Definition columns (p : PivotTable) : gset string := set_map snd (dom p).

(** A cell of the grid after [fillna(0)]: a cell with no row and a cell
    whose count is [null] are both missing values, and read 0. *)
Definition cell (p : PivotTable) (d : Timestamp) (c : string) : json :=
  match p !! (d, c) with
  | None | Some JNull => JInt 0
  | Some v => v
  end.

(** [pivot_df.get(c, pd.Series([0]))] *)
Definition get_column (p : PivotTable) (c : string) : list json :=
  if bool_decide (c ∈ columns p)
  then (λ d, cell p d c) <$> elements (index p)
  else [JInt 0].

(** [.sum()] of a column of integer counts: the sum of the values. This is
    what pandas returns, in int64 or in float64, as long as no rounding or
    wrap-around occurs, which [exact_counts] ensures; the results on tables
    that state the value of a total are stated there. A cell that is
    neither an integer nor missing is outside what is modelled of pandas and
    is reported as a [TypeError]. *)
Fixpoint series_sum (l : list json) : res Z :=
  match l with
  | [] => Ok 0
  | JInt n :: l' => s ← series_sum l'; Ok (n + s)
  | _ :: _ => Raise TypeError
  end.

(** Floating point: the binary64 number nearest to a rational, ties going
    to the even significand. A float is held as the rational it denotes, in
    lowest terms; the range of the exponent is not modelled (counts are far
    from overflow and underflow). *)
Definition round_half_even (n d : Z) : Z :=
  let q := n / d in
  match 2 * (n mod d) ?= d with
  | Lt => q
  | Gt => q + 1
  | Eq => if Z.even q then q else q + 1
  end.

(** [n / d] times [2 ^ k], as a numerator and a denominator. *)
Definition scale2 (n d k : Z) : Z * Z :=
  if 0 <=? k then (n * 2 ^ k, d) else (n, d * 2 ^ (- k)).

Definition binary64 (x : Q) : Q :=
  let n := Z.abs (Qnum x) in
  let d := Zpos (Qden x) in
  if n =? 0 then 0%Q else
  let e0 := Z.log2 n - Z.log2 d in
  let '(n0, d0) := scale2 n d (- e0) in
  let e := if d0 <=? n0 then e0 else e0 - 1 in     (* 2^e <= |x| < 2^(e+1) *)
  let '(n1, d1) := scale2 n d (52 - e) in
  let m := Z.sgn (Qnum x) * round_half_even n1 d1 in   (* 53 bits *)
  let '(n2, d2) := scale2 m 1 (e - 52) in
  Qred (n2 # Z.to_pos d2).

(** [a / b] on the sums, which are numpy numbers: both are taken to
    float64 and divided there. The script divides only behind the guard
    [from_sum > 0]; a zero divisor is reported as Python reports it for its
    own numbers. *)
Definition py_truediv (a b : Z) : res Q :=
  if b =? 0 then Raise ZeroDivisionError
  else Ok (binary64 (binary64 (inject_Z a) / binary64 (inject_Z b))).

Definition funnel_steps : list string :=
  ["Applied"; "Accepted"; "Approved"; "Realized"; "Finished"; "Completed"].

(** One entry of [funnel_data]; the rate is kept as the float it is, before
    it is written as a percentage with one decimal. *)
Record FunnelStep := {
  step_from : string;
  step_to : string;
  from_count : Z;
  to_count : Z;
  conversion : Q
}.

(** [l[i]] on a Python list, for a non-negative index. *)
Definition list_get {A} (l : list A) (i : nat) : res A :=
  match l !! i with
  | Some x => Ok x
  | None => Raise IndexError
  end.

(** [pivot_df.get(c, pd.Series([0])).sum()] *)
Definition column_total (p : PivotTable) (c : string) : res Z :=
  series_sum (get_column p c).

(** [num / den if den > 0 else 0] *)
Definition guarded_rate (num den : Z) : res Q :=
  if 0 <? den then py_truediv num den else Ok 0%Q.

(** The body of [for i in range(len(funnel_steps)-1)]. *)
Definition funnel_step (p : PivotTable) (i : nat) : res FunnelStep :=
  step_from ← list_get funnel_steps i;
  step_to ← list_get funnel_steps (i + 1);
  from_sum ← column_total p step_from;
  to_sum ← column_total p step_to;
  rate ← guarded_rate to_sum from_sum;
  Ok {| step_from := step_from; step_to := step_to;
        from_count := from_sum; to_count := to_sum; conversion := rate |}.

Fixpoint funnel_loop (p : PivotTable) (range : list nat)
    (funnel_data : list FunnelStep) : res (list FunnelStep) :=
  match range with
  | [] => Ok funnel_data
  | i :: range' =>
      s ← funnel_step p i;
      funnel_loop p range' (funnel_data ++ [s])
  end.

Definition funnel_table (p : PivotTable) : res (list FunnelStep) :=
  funnel_loop p (seq 0 (length funnel_steps - 1)) [].

(** The last metric: [total_realized / total_applied if total_applied > 0
    else 0]. *)
Definition realization (p : PivotTable) : res Q :=
  total_applied ← column_total p "Applied";
  total_realized ← column_total p "Realized";
  guarded_rate total_realized total_applied.

(** ** The script as a program over the page, the network and the cache *)

(** The value of a metric: a count, or a rate (before it is written as a
    percentage with one decimal). *)
Inductive metric_value :=
  | MInt (n : Z)
  | MRate (q : Q).

(** What a render puts in the main area of the page, one element per call
    of the script, in the order of the calls. The sidebar holds input
    widgets only and is described by [Inputs]. A metric names the column of
    the last [Columns] row it is written into. *)
Inductive element :=
  | Title (s : string)
  | Info (s : string)
  | Warning (s : string)
  | Error (s : string)
  | JsonView (j : json)
  | Subheader (s : string)
  | Header (s : string)
  | Multiselect (label : string) (options default : list string)
  | PlotlyChart (df : DataFrame) (line_shape : string)
  | Table (funnel_df : list FunnelStep)
  | Columns (n : nat)
  | Metric (column : nat) (label : string) (value : metric_value).

(** The texts of lines 15 and 26-32. *)
Definition page_title : string := "🌍 AIESEC Exchange Analytics Dashboard".

Definition newline : string := String "010" "".

Definition token_prompt : string :=
  newline +:+
  "        🔑 Please enter your AIESEC EXPA Analytics access token in the sidebar.  "
  +:+ newline +:+
  "        You can get your token by:"
  +:+ newline +:+
  "        1. Going to [EXPA Analytics](https://expa.aiesec.org/analytics/)"
  +:+ newline +:+
  "        2. Logging in"
  +:+ newline +:+
  "        3. Copying the access token from your account settings or API section"
  +:+ newline +:+
  "    ".

Inductive http_body :=
  | JsonBody (j : json)       (* a body that decodes to [j] *)
  | TextBody (s : string).    (* a body that is not JSON *)

Record Response := { status_code : Z; body : http_body }.

(** [response.json()] *)
Definition response_json (r : Response) : res json :=
  match body r with
  | JsonBody j => Ok j
  | TextBody _ => Raise JSONDecodeError
  end.

(** The arguments of [fetch_exchange_data], which key its cache. *)
Abbreviation CacheKey :=
  (string * string * list string * Date * Date * string * option Z)%type.

Record World := {
  ui : list element;                       (* elements shown, in order *)
  requests : list (gmap string pval);      (* GET requests sent, in order *)
  cache : list (CacheKey * (Z * DataFrame))
    (* st.cache_data: arguments, time stored, value; newest entry first *)
}.

(** How a piece of the script ends: it returns, it calls [st.stop()], or
    it raises. *)
Inductive outcome (A : Type) :=
  | Done (a : A)
  | Stopped
  | Raised (e : exn).
Arguments Done {A} a.
Arguments Stopped {A}.
Arguments Raised {A} e.

Definition M (A : Type) : Type := World → outcome A * World.

Global Instance M_ret : MRet M := λ A a w, (Done a, w).
Global Instance M_bind : MBind M := λ A B f m w,
  match m w with
  | (Done a, w') => f a w'
  | (Stopped, w') => (Stopped, w')
  | (Raised e, w') => (Raised e, w')
  end.

Definition lift {A} (r : res A) : M A := λ w,
  match r with
  | Ok a => (Done a, w)
  | Raise e => (Raised e, w)
  end.

(** The world after one more element is shown. *)
Definition shown (e : element) (w : World) : World :=
  {| ui := ui w ++ [e]; requests := requests w; cache := cache w |}.

Definition st_show (e : element) : M unit := λ w, (Done (), shown e w).

Definition st_stop {A} : M A := λ w, (Stopped, w).

(** The world after one more GET request is sent. *)
Definition sent (params : gmap string pval) (w : World) : World :=
  {| ui := ui w; requests := requests w ++ [params]; cache := cache w |}.

(** [@st.cache_data(ttl=...)]: an entry stored at time [stored] answers calls
    made before [stored + ttl]; otherwise the function runs, and its value is
    stored only if it returns. Times are in seconds. *)
Fixpoint cache_find (key : CacheKey)
    (entries : list (CacheKey * (Z * DataFrame))) : option (Z * DataFrame) :=
  match entries with
  | [] => None
  | (k, v) :: entries' =>
      if decide (k = key) then Some v else cache_find key entries'
  end.

Definition cache_lookup (ttl : Z) (key : CacheKey) (now : Z)
    (w : World) : option DataFrame :=
  match cache_find key (cache w) with
  | Some (stored, df) => if now <? stored + ttl then Some df else None
  | None => None
  end.

Definition cache_store (key : CacheKey) (now : Z) (df : DataFrame)
    (w : World) : World :=
  {| ui := ui w; requests := requests w;
     cache := (key, (now, df)) :: cache w |}.

Definition cache_data (ttl : Z) (key : CacheKey) (now : Z)
    (f : M DataFrame) : M DataFrame := λ w,
  match cache_lookup ttl key now w with
  | Some df => (Done df, w)
  | None =>
      match f w with
      | (Done df, w') => (Done df, cache_store key now df w')
      | other => other
      end
  end.

(** [df["status"].unique()]: the statuses in order of first appearance. *)
Fixpoint unique_from (seen l : list string) : list string :=
  match l with
  | [] => []
  | x :: l' =>
      if bool_decide (x ∈ seen) then unique_from seen l'
      else x :: unique_from (x :: seen) l'
  end.

Definition unique (l : list string) : list string := unique_from [] l.

(** What the sidebar and the status selector hand to one render. The status
    selector answers with the user's choice among the options it is given;
    untouched, it answers with all of them. *)
Record Inputs := {
  access_token : string;
  selected_exchange_type : string;
  selected_programmes : list string;
  entity_id_input : string;
  start_date : Date;
  end_date : Date;
  line_shape : string;
  select_statuses : list string → list string
}.

(** The values a completed render has computed. *)
Record Aggregate := {
  pivot_df : PivotTable;
  funnel_df : list FunnelStep;
  total_applied : Z;
  total_approved : Z;
  total_realized : Z;
  realization_rate : Q
}.

(** [filtered_df] (lines 159-162): the rows whose status is selected,
    without the rows of status "Sign Up". *)
Definition filter_statuses (selected : list string)
    (df : DataFrame) : DataFrame :=
  filter (λ r, status r ≠ "Sign Up")
    (filter (λ r, status r ∈ selected) df).

(** What the script does with the table the fetch has returned: lines 146
    to 218. *)
Definition render_table (inp : Inputs) (exchange_df : DataFrame) : M Aggregate :=
  _ ← (if bool_decide (exchange_df = []) then
         _ ← st_show (Warning "No data returned from the API for the selected filters.");
         st_stop
       else mret ());
  _ ← st_show (Subheader "Filter Statuses");
  let statuses := unique (status <$> exchange_df) in
  _ ← st_show (Multiselect "Select statuses to display" statuses statuses);
  let selected_statuses := select_statuses inp statuses in
  let filtered_df := filter_statuses selected_statuses exchange_df in
  _ ← st_show (Header "Exchange Trends Over Time");
  _ ← st_show (PlotlyChart filtered_df (line_shape inp));
  _ ← st_show (Header "Funnel Conversion Rates");
  pivot_df ← lift (pivot filtered_df);
  funnel_data ← lift (funnel_table pivot_df);
  _ ← st_show (Table funnel_data);
  _ ← st_show (Header "Key Metrics");
  _ ← st_show (Columns 4);
  applied ← lift (column_total pivot_df "Applied");
  _ ← st_show (Metric 0 "Total Applied" (MInt applied));
  approved ← lift (column_total pivot_df "Approved");
  _ ← st_show (Metric 1 "Total Approved" (MInt approved));
  realized ← lift (column_total pivot_df "Realized");
  _ ← st_show (Metric 2 "Total Realized" (MInt realized));
  rate ← lift (realization pivot_df);
  _ ← st_show (Metric 3 "Realization Rate" (MRate rate));
  mret {| pivot_df := pivot_df; funnel_df := funnel_data;
          total_applied := applied; total_approved := approved;
          total_realized := realized; realization_rate := rate |}.

Section Script.
(** [pd.to_datetime], the remote API (the response to a GET sent at a given
    time with given parameters) and the interpreter's Unicode database. *)
Variable to_datetime : json → res Timestamp.
Variable http_get : Z → gmap string pval → Response.
Variable unicode : UnicodeData.

(** [requests.get(API_URL, params=params)] *)
Definition requests_get (now : Z) (params : gmap string pval) : M Response :=
  λ w, (Done (http_get now params), sent params w).

(** The body of [fetch_exchange_data]. *)
Definition fetch_body (now : Z) (token exchange_type : string)
    (programmes : list string) (start_date end_date : Date)
    (interval : string) (office_id : option Z) : M DataFrame :=
  params ← lift (build_params token exchange_type programmes
                   start_date end_date interval office_id);
  response ← requests_get now params;
  if negb (status_code response =? 200) then
    _ ← st_show (Error ("API request failed with status code "
                        +:+ pretty (status_code response)));
    j ← lift (response_json response);
    _ ← st_show (JsonView j);
    st_stop
  else
  json_data ← lift (response_json response);
  has_analytics ← lift (py_in "analytics" json_data);
  if negb has_analytics then
    _ ← st_show (Error "API response does not contain 'analytics'. Full response:");
    _ ← st_show (JsonView json_data);
    st_stop
  else
  data ← lift (py_getitem json_data "analytics");
  lift (normalize to_datetime data).

(** [fetch_exchange_data] under its decorator. *)
Definition fetch_exchange_data (now : Z) (token exchange_type : string)
    (programmes : list string) (start_date end_date : Date)
    (interval : string) (office_id : option Z) : M DataFrame :=
  cache_data 3600
    (token, exchange_type, programmes, start_date, end_date, interval,
     office_id) now
    (fetch_body now token exchange_type programmes start_date end_date
       interval office_id).

(** One render of the page at time [now]. *)
Definition script (inp : Inputs) (now : Z) : M Aggregate :=
  _ ← st_show (Title page_title);
  _ ← (if String.eqb (access_token inp) "" then
         _ ← st_show (Info token_prompt);
         st_stop
       else mret ());
  office_id ← match py_int unicode (entity_id_input inp) with
              | Some n => mret n
              | None =>
                  _ ← st_show (Warning "Please enter a valid numeric Entity ID");
                  st_stop
              end;
  exchange_df ← fetch_exchange_data now (access_token inp)
                   (selected_exchange_type inp) (selected_programmes inp)
                   (start_date inp) (end_date inp) "month" (Some office_id);
  render_table inp exchange_df.
End Script.

(** A stage whose data is all there: stage object, sub-object, a bucket
    array, and every bucket readable. *)
Definition stage_complete (to_datetime : json → res Timestamp)
    (data : json) (key label : string) : Prop :=
  ∃ o s a bs, data = JObj o ∧ o !! key = Some (JObj s) ∧
    s !! parent_key key = Some (JObj a) ∧ a !! "buckets" = Some (JArr bs) ∧
    Forall (λ b, ∃ r, bucket_row to_datetime label b = Ok r) bs.

(** The rows [g] that one stage contributes: one per bucket of the stage, in
    bucket order. *)
Definition stage_group (to_datetime : json → res Timestamp)
    (data : json) (key label : string) (g : DataFrame) : Prop :=
  ∃ bs, stage_buckets data key = Ok bs ∧
    Forall2 (λ b r, bucket_row to_datetime label b = Ok r) bs g.

(** ** Sample data *)

Definition midnight_utc (y m d : Z) : Timestamp :=
  {| year := y; month := m; day := d;
     hour := 0; minute := 0; second := 0; utc := true |}.

Definition bucket (key_as_string : string) (doc_count : Z) : json :=
  JObj {[ "key_as_string" := JStr key_as_string;
          "doc_count" := JInt doc_count ]}.

Definition applications (buckets : list json) : gmap string json :=
  {[ "applications" := JObj {[ "buckets" := JArr buckets ]} ]}.

(** Only [total_applications] present, with one bucket. *)
Definition applied_only : gmap string json :=
  {[ "total_applications" :=
       JObj (applications [bucket "2024-01-01T00:00:00Z" 10]) ]}.

(** Two stages with data, one with an empty stage object. *)
Definition sparse_payload : gmap string json :=
  {[ "total_applications" :=
       JObj (applications [bucket "2024-02-01T00:00:00Z" 5;
                           bucket "2024-01-01T00:00:00Z" 10]);
     "total_approvals" := JObj ∅;
     "total_realized" :=
       JObj (applications [bucket "2024-01-01T00:00:00Z" 4]) ]}.

(** Payloads with a null in place of the stage, and in place of its bucket
    array. *)
Definition null_stage : gmap string json :=
  {[ "total_applications" := JNull ]}.

Definition null_buckets : gmap string json :=
  {[ "total_applications" :=
       JObj {[ "applications" := JObj {[ "buckets" := JNull ]} ]} ]}.

(** Two rows for the same date and stage. *)
Definition dup_table : DataFrame :=
  [ {| date := midnight_utc 2024 1 1; status := "Applied"; count := JInt 3 |};
    {| date := midnight_utc 2024 1 1; status := "Applied"; count := JInt 4 |} ].

(** One date with 100 applied and 40 approved. *)
Definition small_table : DataFrame :=
  [ {| date := midnight_utc 2024 1 1; status := "Applied"; count := JInt 100 |};
    {| date := midnight_utc 2024 1 1; status := "Approved"; count := JInt 40 |} ].

Definition small_pivot : PivotTable :=
  list_to_map ((λ r, (pivot_key r, count r)) <$> small_table).

Definition empty_world : World := {| ui := []; requests := []; cache := [] |}.

(** A filled-in sidebar, for a given entity id text and status choice. *)
Definition sample_inputs (entity : string)
    (select : list string → list string) : Inputs :=
  {| access_token := "token";
     selected_exchange_type := "Outgoing";
     selected_programmes := ["Global Volunteer"; "Global Talent"; "Global Teacher"];
     entity_id_input := entity;
     start_date := {| dyear := 2024; dmonth := 1; dday := 1 |};
     end_date := {| dyear := 2024; dmonth := 12; dday := 31 |};
     line_shape := "linear";
     select_statuses := select |}.

(** The parameters sent for [sample_inputs "1609"]. *)
Definition sample_params : gmap string pval :=
  {[ "start_date" := PStr "2024-01-01";
     "end_date" := PStr "2024-12-31";
     "histogram[type]" := PStr "person";
     "histogram[interval]" := PStr "month";
     "exchange_type" := PStr "person";
     "histogram[office_id]" := PInt 1609;
     "access_token" := PStr "token";
     "programmes[]" := PList [6; 7; 8] ]}.

(** A remote API that always answers [r]. *)
Definition server (r : Response) : Z → gmap string pval → Response :=
  λ _ _, r.

Definition analytics_response : Response :=
  {| status_code := 200;
     body := JsonBody (JObj {[ "analytics" := JObj applied_only ]}) |}.

Definition empty_analytics : Response :=
  {| status_code := 200; body := JsonBody (JObj {[ "analytics" := JObj ∅ ]}) |}.

Definition server_error : Response :=
  {| status_code := 500;
     body := JsonBody (JObj {[ "error" := JStr "internal error" ]}) |}.

Definition bad_gateway : Response :=
  {| status_code := 502; body := TextBody "<html>502 Bad Gateway</html>" |}.

(** Every cell of the pivot holds an integer count. *)
Definition int_cells (p : PivotTable) : Prop :=
  map_Forall (λ _ v, ∃ n, v = JInt n) p.

(** What the loop body computes for step [i] on integer cells. *)
Definition step_spec (p : PivotTable) (i : nat) (s : FunnelStep) : Prop :=
  funnel_steps !! i = Some (step_from s) ∧
  funnel_steps !! S i = Some (step_to s) ∧
  column_total p (step_from s) = Ok (from_count s) ∧
  column_total p (step_to s) = Ok (to_count s) ∧
  guarded_rate (to_count s) (from_count s) = Ok (conversion s) ∧
  (from_count s = 0 → conversion s = 0%Q).

(** The only exceptions [m] can raise are those in [P]. *)
Definition raises_only {A} (P : exn → Prop) (m : res A) : Prop :=
  ∀ e, m = Raise e → P e.

(** An answer whose "Applied" buckets overlap: two for the same month. *)
Definition overlapping_response : Response :=
  {| status_code := 200;
     body := JsonBody (JObj {[ "analytics" := JObj
       {[ "total_applications" :=
            JObj (applications [bucket "2024-01-01T00:00:00Z" 3;
                                bucket "2024-01-01T00:00:00Z" 4]) ]} ]}) |}.

(** An answer with two stages over two months. *)
Definition sparse_response : Response :=
  {| status_code := 200;
     body := JsonBody (JObj {[ "analytics" := JObj sparse_payload ]}) |}.

(** ** Notions used to state what the rest of the script does *)

(** The stage labels, in funnel order. *)
Definition stage_labels : list string := STATUS_MAP.*2.

(** Two payload objects that hold the same values under the six stage
    keys. *)
Definition same_stages (o o' : gmap string json) : Prop :=
  ∀ key, key ∈ STATUS_MAP.*1 → o !! key = o' !! key.

(** The integer a count holds (0 for anything else). *)
Definition count_value (j : json) : Z :=
  match j with
  | JInt n => n
  | _ => 0
  end.

(** Every count of the table is an integer. *)
Definition int_counts (df : DataFrame) : Prop :=
  Forall (λ r, ∃ n, count r = JInt n) df.

(** The counts are integers whose magnitudes add up to at most [2^53]:
    every sum of some of them is then the same number in int64 and in
    float64, whatever the order of the additions. *)
Definition exact_counts (df : DataFrame) : Prop :=
  int_counts df ∧
  foldr Z.add 0 (Z.abs ∘ count_value ∘ count <$> df) ≤ 2 ^ 53.

(** The sum of the counts of the rows of status [c]. *)
Definition stage_total (c : string) (df : DataFrame) : Z :=
  foldr Z.add 0
    (count_value ∘ count <$> filter (λ r, status r = c) df).

(** The funnel table of a pivot without rows: the five steps, with no
    counts and no rates. *)
Definition empty_funnel : list FunnelStep :=
  (λ '(a, b), {| step_from := a; step_to := b; from_count := 0;
                 to_count := 0; conversion := 0 |})
  <$> zip funnel_steps (drop 1 funnel_steps).

(** A piece of the script that sends nothing and leaves the cache alone. *)
Definition offline {A} (m : M A) : Prop :=
  ∀ w o w', m w = (o, w') → requests w' = requests w ∧ cache w' = cache w.

(** * Properties *)

Ltac in_list := by repeat constructor.

(** ** The normalizer *)

Lemma res_bind_Ok {A B} (m : res A) (f : A → res B) (b : B) :
  m ≫= f = Ok b ↔ ∃ a, m = Ok a ∧ f a = Ok b.
Proof.
  destruct m as [a|e]; simpl; split.
  - eauto.
  - by intros (a' & [= <-] & ?).
  - done.
  - by intros (? & ? & ?).
Qed.

Section NormalizerFacts.
Variable to_datetime : json → res Timestamp.

Lemma bucket_row_Ok label b r :
  bucket_row to_datetime label b = Ok r ↔
  ∃ k, py_getitem b "key_as_string" = Ok k ∧
       to_datetime k = Ok (date r) ∧
       status r = label ∧
       py_getitem b "doc_count" = Ok (count r).
Proof.
  unfold bucket_row. split.
  - intros H.
    apply res_bind_Ok in H as (k & Hk & H).
    apply res_bind_Ok in H as (d & Hd & H).
    apply res_bind_Ok in H as (c & Hc & H).
    injection H as <-. simpl. eauto.
  - intros (k & -> & Hd & Hs & Hc). simpl. rewrite Hd. simpl.
    rewrite Hc. simpl. destruct r; simpl in *. by subst.
Qed.

(** The bucket loop appends one row per bucket, in bucket order, and
    returns exactly when every bucket can be read. *)
Lemma append_buckets_Ok label bs rows rows' :
  append_buckets to_datetime label bs rows = Ok rows' ↔
  ∃ new, Forall2 (λ b r, bucket_row to_datetime label b = Ok r) bs new ∧
         rows' = rows ++ new.
Proof.
  revert rows. induction bs as [|b bs IH]; intros rows; simpl.
  - split.
    + intros [= <-]. exists []. by rewrite app_nil_r.
    + intros (new & Hnew & ->). apply Forall2_nil_inv_l in Hnew as ->.
      by rewrite app_nil_r.
  - rewrite res_bind_Ok. split.
    + intros (r & Hr & H). apply IH in H as (new & Hnew & ->).
      exists (r :: new). split; [by constructor|]. by rewrite <-app_assoc.
    + intros (new & Hnew & ->).
      apply Forall2_cons_inv_l in Hnew as (r & new' & Hr & Hnew & ->).
      exists r. split; [done|]. apply IH. exists new'.
      split; [done|]. by rewrite <-app_assoc.
Qed.

(** An iteration of the stage loop is the bucket loop run on the buckets
    of the stage. *)
Lemma stage_step_buckets data key label rows :
  stage_step to_datetime data key label rows =
  stage_buckets data key ≫= λ bs, append_buckets to_datetime label bs rows.
Proof.
  unfold stage_step, stage_buckets.
  destruct (py_in key data) as [[]|]; simpl; [|done..].
  destruct (py_getitem data key) as [stage|]; simpl; [|done].
  destruct (py_in (parent_key key) stage) as [[]|]; simpl; [|done..].
  destruct (py_getitem stage (parent_key key)) as [parent|]; simpl; [|done].
  destruct (py_in "buckets" parent) as [[]|]; simpl; [|done..].
  by destruct (py_getitem parent "buckets") as [buckets|].
Qed.

Lemma stage_step_Ok data key label rows rows' :
  stage_step to_datetime data key label rows = Ok rows' ↔
  ∃ bs new, stage_buckets data key = Ok bs ∧
    Forall2 (λ b r, bucket_row to_datetime label b = Ok r) bs new ∧
    rows' = rows ++ new.
Proof.
  rewrite stage_step_buckets, res_bind_Ok.
  setoid_rewrite append_buckets_Ok. split.
  - intros (bs & Hbs & new & Hnew & ->). eauto.
  - intros (bs & new & Hbs & Hnew & ->). eauto.
Qed.

Lemma stage_loop_Ok data stages rows rows' :
  stage_loop to_datetime data stages rows = Ok rows' ↔
  ∃ groups,
    Forall2 (λ '(key, label) g, stage_group to_datetime data key label g)
      stages groups ∧
    rows' = rows ++ concat groups.
Proof.
  revert rows. induction stages as [|[key label] stages IH]; intros rows; simpl.
  - split.
    + intros [= <-]. exists []. by rewrite app_nil_r.
    + intros (gs & Hgs & ->). apply Forall2_nil_inv_l in Hgs as ->.
      simpl. by rewrite app_nil_r.
  - rewrite res_bind_Ok. setoid_rewrite stage_step_Ok. setoid_rewrite IH.
    split.
    + intros (r1 & (bs & new & Hbs & Hnew & ->) & gs & Hgs & ->).
      exists (new :: gs). split; [constructor; [by exists bs|done]|].
      simpl. by rewrite <-app_assoc.
    + intros (gs & Hgs & ->).
      apply Forall2_cons_inv_l in Hgs as (g & gs' & (bs & Hbs & Hg) & Hgs & ->).
      exists (rows ++ g). split; [by exists bs, g|].
      exists gs'. split; [done|].
      simpl. by rewrite <-app_assoc.
Qed.
End NormalizerFacts.

Lemma STATUS_MAP_label_inj k k' l :
  (k, l) ∈ STATUS_MAP → (k', l) ∈ STATUS_MAP → k = k'.
Proof.
  unfold STATUS_MAP. rewrite !elem_of_cons, !elem_of_nil.
  intros H1 H2. destruct_or!; simplify_eq; done.
Qed.

Lemma stage_buckets_missing data key :
  stage_missing data key → stage_buckets data key = Ok [].
Proof.
  intros (o & -> & [Hk | (s & Hk & [Hp | (a & Hp & Hb)])]);
    unfold stage_buckets; simpl; rewrite Hk; simpl.
  - done.
  - by rewrite Hp.
  - rewrite Hp. simpl. by rewrite Hb.
Qed.

Lemma stage_buckets_array (o s a : gmap string json) key bs :
  o !! key = Some (JObj s) →
  s !! parent_key key = Some (JObj a) →
  a !! "buckets" = Some (JArr bs) →
  stage_buckets (JObj o) key = Ok bs.
Proof.
  intros Hk Hp Hb. unfold stage_buckets. simpl. rewrite Hk. simpl.
  rewrite Hp. simpl. by rewrite Hb.
Qed.

Lemma Forall2_concat_elem {A B} (P : A → list B → Prop) xs gs r :
  Forall2 P xs gs → r ∈ concat gs → ∃ x g, x ∈ xs ∧ P x g ∧ r ∈ g.
Proof.
  induction 1 as [|x g xs gs HP _ IH]; simpl.
  - by intros ?%elem_of_nil.
  - intros [Hr | Hr]%elem_of_app.
    + exists x, g. split_and!; [left|done..].
    + destruct (IH Hr) as (x' & g' & ? & ? & ?).
      exists x', g'. split_and!; [by right|done..].
Qed.

Lemma Forall_exists_Forall2 {A B} (P : A → B → Prop) xs :
  Forall (λ x, ∃ y, P x y) xs → ∃ ys, Forall2 P xs ys.
Proof.
  induction 1 as [|x xs [y Hy] _ [ys IH]]; [by exists []|].
  exists (y :: ys). by constructor.
Qed.

(** C3: a payload whose only stage key is [total_applications], with the
    single bucket [{key_as_string: "2024-01-01T00:00:00Z", doc_count: 10}]
    under [applications], normalizes to exactly one row: date 2024-01-01,
    status "Applied", count 10. In general, for a stage whose bucket array
    is present, the stage's iteration returns exactly when every bucket can
    be read, and then appends exactly one row per bucket, holding the parsed
    timestamp, the stage's label and the bucket's [doc_count]. *)
Theorem normalize_one_row_per_bucket (to_datetime : json → res Timestamp) :
  (∀ o s a : gmap string json,
     (∀ key label, (key, label) ∈ STATUS_MAP →
        key ≠ "total_applications" → o !! key = None) →
     o !! "total_applications" = Some (JObj s) →
     s !! "applications" = Some (JObj a) →
     a !! "buckets" = Some (JArr [bucket "2024-01-01T00:00:00Z" 10]) →
     to_datetime (JStr "2024-01-01T00:00:00Z") = Ok (midnight_utc 2024 1 1) →
     normalize to_datetime (JObj o) =
       Ok [ {| date := midnight_utc 2024 1 1; status := "Applied";
               count := JInt 10 |} ]) ∧
  (∀ (o s a : gmap string json) key label bs rows rows',
     o !! key = Some (JObj s) →
     s !! parent_key key = Some (JObj a) →
     a !! "buckets" = Some (JArr bs) →
     (stage_step to_datetime (JObj o) key label rows = Ok rows' ↔
      ∃ new, rows' = rows ++ new ∧
        Forall2 (λ b r, ∃ k,
            py_getitem b "key_as_string" = Ok k ∧
            to_datetime k = Ok (date r) ∧
            status r = label ∧
            py_getitem b "doc_count" = Ok (count r)) bs new)).
Proof.
  split.
  - intros o s a Hothers Hk Hp Hb Hdate.
    unfold normalize. apply stage_loop_Ok.
    exists [[ {| date := midnight_utc 2024 1 1; status := "Applied";
                 count := JInt 10 |} ]; []; []; []; []; []].
    split; [|done].
    assert (Hskip : ∀ key label, (key, label) ∈ STATUS_MAP →
              key ≠ "total_applications" →
              stage_group to_datetime (JObj o) key label []).
    { intros key label Hin Hne. exists []. split; [|constructor].
      apply stage_buckets_missing. exists o. split; [done|].
      left. by eapply Hothers. }
    unfold STATUS_MAP in *.
    constructor.
    { eexists. split; [by eapply stage_buckets_array|].
      constructor; [|constructor].
      apply bucket_row_Ok. exists (JStr "2024-01-01T00:00:00Z").
      split_and!; done. }
    repeat (constructor; [apply Hskip; [in_list|done]|]).
    constructor.
  - intros o s a key label bs rows rows' Hk Hp Hb.
    rewrite stage_step_Ok, (stage_buckets_array _ _ _ _ _ Hk Hp Hb).
    split.
    + intros (bs' & new & [= <-] & Hnew & ->). exists new. split; [done|].
      eapply Forall2_impl; [done|]. intros b r. by rewrite bucket_row_Ok.
    + intros (new & -> & Hnew). exists bs, new. split_and!; [done| |done].
      eapply Forall2_impl; [done|]. intros b r. by rewrite bucket_row_Ok.
Qed.

Lemma normalize_one_row_per_bucket_witness :
  normalize to_datetime_iso (JObj applied_only) =
    Ok [ {| date := midnight_utc 2024 1 1; status := "Applied";
            count := JInt 10 |} ].
Proof.
  refine (proj1 (normalize_one_row_per_bucket to_datetime_iso) applied_only
    (applications [bucket "2024-01-01T00:00:00Z" 10])
    {[ "buckets" := JArr [bucket "2024-01-01T00:00:00Z" 10] ]} _ _ _ _ _).
  - unfold STATUS_MAP. intros key label Hin Hne.
    rewrite !elem_of_cons, elem_of_nil in Hin.
    destruct_or!; simplify_eq; done.
  - reflexivity.
  - reflexivity.
  - reflexivity.
  - reflexivity.
Defined.

Lemma stage_group_status to_datetime data key label g r :
  stage_group to_datetime data key label g → r ∈ g → status r = label.
Proof.
  intros (bs & _ & Hg) [i Hi]%list_elem_of_lookup.
  destruct (Forall2_lookup_r _ _ _ _ _ Hg Hi) as (b & _ & Hb).
  apply bucket_row_Ok in Hb as (k & _ & _ & Hs & _). done.
Qed.

(** C5, as the code has it: a stage whose key is not in the payload object,
    or whose value is an object without the sub-object's key
    ("applications"; "people" only for the key "total_signup"), or whose
    sub-object is an object without a "buckets" key, is skipped: its
    iteration returns the rows unchanged and raises nothing, the table
    holds no row of that stage, and a payload in which every stage is
    either missing in this way or complete normalizes without an error. *)
Theorem missing_stage_is_skipped
    (to_datetime : json → res Timestamp) (data : json) (key label : string) :
  stage_missing data key →
  (∀ rows, stage_step to_datetime data key label rows = Ok rows) ∧
  ((key, label) ∈ STATUS_MAP → ∀ df,
     normalize to_datetime data = Ok df → Forall (λ r, status r ≠ label) df) ∧
  ((∀ k l, (k, l) ∈ STATUS_MAP →
      stage_missing data k ∨ stage_complete to_datetime data k l) →
   ∃ df, normalize to_datetime data = Ok df).
Proof.
  intros Hmiss. split_and!.
  - intros rows. rewrite stage_step_buckets, (stage_buckets_missing _ _ Hmiss).
    done.
  - intros Hin df Hdf. unfold normalize in Hdf.
    apply stage_loop_Ok in Hdf as (groups & Hgroups & ->). simpl.
    apply Forall_forall. intros r Hr Hlabel.
    destruct (Forall2_concat_elem _ _ _ _ Hgroups Hr) as ([k l] & g & Hkl & Hg & Hrg).
    pose proof (stage_group_status _ _ _ _ _ _ Hg Hrg) as Hl.
    rewrite Hlabel in Hl. subst l.
    rewrite (STATUS_MAP_label_inj _ _ _ Hkl Hin) in Hg.
    destruct Hg as (bs & Hbs & Hg).
    rewrite (stage_buckets_missing _ _ Hmiss) in Hbs. injection Hbs as <-.
    apply Forall2_nil_inv_l in Hg as ->. by apply elem_of_nil in Hrg.
  - intros Hall.
    assert (Hgroups : Forall (λ kl, ∃ g,
              (λ '(k, l) g, stage_group to_datetime data k l g) kl g) STATUS_MAP).
    { apply Forall_forall. intros [k l] Hkl.
      destruct (Hall k l Hkl) as [Hm | (o & s & a & bs & -> & Hk & Hp & Hb & Hbs)].
      - exists [], []. split; [by apply stage_buckets_missing|constructor].
      - destruct (Forall_exists_Forall2 _ _ Hbs) as [g Hg].
        exists g, bs. split; [by eapply stage_buckets_array|done]. }
    apply Forall_exists_Forall2 in Hgroups as [groups Hgroups].
    exists (concat groups). unfold normalize. apply stage_loop_Ok.
    by exists groups.
Qed.

Lemma missing_stage_is_skipped_witness :
  stage_step to_datetime_iso (JObj sparse_payload)
    "total_approvals" "Approved" [] = Ok [] ∧
  ∃ df, normalize to_datetime_iso (JObj sparse_payload) = Ok df.
Proof.
  assert (Hmiss : stage_missing (JObj sparse_payload) "total_approvals").
  { exists sparse_payload. split; [done|]. right. exists ∅. by split; [|left]. }
  destruct (missing_stage_is_skipped to_datetime_iso _ _ "Approved" Hmiss)
    as (Hstep & _ & Hall).
  split; [apply Hstep|]. apply Hall.
  intros k l Hkl. unfold STATUS_MAP in Hkl.
  rewrite !elem_of_cons, elem_of_nil in Hkl.
  destruct Hkl as [Hkl|[Hkl|[Hkl|[Hkl|[Hkl|[Hkl|[]]]]]]];
    injection Hkl as -> ->.
  - right. eexists sparse_payload, _, _, _.
    split_and!; [reflexivity|vm_compute; reflexivity..|].
    repeat constructor; eexists; vm_compute; reflexivity.
  - left. exists sparse_payload. split; [done|]. left; vm_compute; reflexivity.
  - left. apply Hmiss.
  - right. eexists sparse_payload, _, _, _.
    split_and!; [reflexivity|vm_compute; reflexivity..|].
    repeat constructor; eexists; vm_compute; reflexivity.
  - left. exists sparse_payload. split; [done|]. left; vm_compute; reflexivity.
  - left. exists sparse_payload. split; [done|]. left; vm_compute; reflexivity.
Defined.

(** C5 as stated fails: a stage whose value is null has no sub-object, and
    a sub-object whose "buckets" entry is null lacks a bucket array, yet
    neither stage is skipped: the membership test on null, and the
    iteration over null, raise [TypeError]. *)
Lemma null_stage_not_skipped :
  normalize to_datetime_iso (JObj null_stage) = Raise TypeError ∧
  normalize to_datetime_iso (JObj null_buckets) = Raise TypeError ∧
  ¬ (∃ df, normalize to_datetime_iso (JObj null_stage) = Ok df) ∧
  ¬ (∃ df, normalize to_datetime_iso (JObj null_buckets) = Ok df).
Proof.
  assert (H1 : normalize to_datetime_iso (JObj null_stage) = Raise TypeError)
    by (vm_compute; reflexivity).
  assert (H2 : normalize to_datetime_iso (JObj null_buckets) = Raise TypeError)
    by (vm_compute; reflexivity).
  split_and!; [done..| |]; intros [df Hdf]; congruence.
Qed.

(** C9: the table returned by the normalizer is the concatenation of six
    groups, one per stage key in the fixed order total_applications,
    total_an_accepted, total_approvals, total_realized, total_finished,
    total_completed; each group holds the rows of that stage's buckets in
    the order of the payload's bucket array (whatever their dates), and the
    normalizer returns such a table whenever the groups exist. *)
Theorem normalize_grouped_by_stage
    (to_datetime : json → res Timestamp) (data : json) (df : DataFrame) :
  normalize to_datetime data = Ok df ↔
  ∃ applied accepted approved realized finished completed,
    df = applied ++ accepted ++ approved ++ realized ++ finished ++ completed ∧
    stage_group to_datetime data "total_applications" "Applied" applied ∧
    stage_group to_datetime data "total_an_accepted" "Accepted" accepted ∧
    stage_group to_datetime data "total_approvals" "Approved" approved ∧
    stage_group to_datetime data "total_realized" "Realized" realized ∧
    stage_group to_datetime data "total_finished" "Finished" finished ∧
    stage_group to_datetime data "total_completed" "Completed" completed.
Proof.
  unfold normalize. rewrite stage_loop_Ok. unfold STATUS_MAP. split.
  - intros (groups & H & ->).
    repeat (apply Forall2_cons_inv_l in H as (? & ? & ? & H & ->)).
    apply Forall2_nil_inv_l in H as ->.
    do 6 eexists. split; [|split_and!; eassumption].
    simpl. by rewrite app_nil_r.
  - intros (g1 & g2 & g3 & g4 & g5 & g6 & -> & H1 & H2 & H3 & H4 & H5 & H6).
    exists [g1; g2; g3; g4; g5; g6]. split.
    + by repeat constructor.
    + simpl. by rewrite app_nil_r.
Qed.

Lemma normalize_grouped_by_stage_witness :
  ∃ applied realized,
    stage_group to_datetime_iso (JObj sparse_payload)
      "total_applications" "Applied" applied ∧
    stage_group to_datetime_iso (JObj sparse_payload)
      "total_realized" "Realized" realized ∧
    (date <$> applied) = [midnight_utc 2024 2 1; midnight_utc 2024 1 1] ∧
    normalize to_datetime_iso (JObj sparse_payload) = Ok (applied ++ realized).
Proof.
  assert (Hdf : ∃ df, normalize to_datetime_iso (JObj sparse_payload) = Ok df).
  { eexists. vm_compute. reflexivity. }
  destruct Hdf as [df Hdf].
  pose proof (proj1 (normalize_grouped_by_stage to_datetime_iso _ _) Hdf)
    as (g1 & g2 & g3 & g4 & g5 & g6 & -> & H1 & H2 & H3 & H4 & H5 & H6).
  assert (Hempty : ∀ key label g,
            stage_buckets (JObj sparse_payload) key = Ok [] →
            stage_group to_datetime_iso (JObj sparse_payload) key label g →
            g = []).
  { intros key label g Hk (bs & Hbs & Hg). rewrite Hk in Hbs.
    injection Hbs as <-. by apply Forall2_nil_inv_l in Hg. }
  apply Hempty in H2 as ->; [|by vm_compute].
  apply Hempty in H3 as ->; [|by vm_compute].
  apply Hempty in H5 as ->; [|by vm_compute].
  apply Hempty in H6 as ->; [|by vm_compute].
  exists g1, g4. split_and!; [done|done| |by rewrite app_nil_r in Hdf].
  destruct H1 as (bs & Hbs & Hg). vm_compute in Hbs. injection Hbs as <-.
  apply Forall2_cons_inv_l in Hg as (r1 & ? & Hr1 & Hg & ->).
  apply Forall2_cons_inv_l in Hg as (r2 & ? & Hr2 & Hg & ->).
  apply Forall2_nil_inv_l in Hg as ->.
  vm_compute in Hr1, Hr2. by injection Hr1 as <-; injection Hr2 as <-.
Defined.

(** ** The query parameters *)

Lemma programme_map_codes prog code :
  programme_map !! prog = Some code → code ∈ [6; 7; 8].
Proof.
  unfold programme_map. intros H.
  apply lookup_insert_Some in H as [[_ <-]|[_ H]]; [in_list|].
  apply lookup_insert_Some in H as [[_ <-]|[_ H]]; [in_list|].
  apply lookup_singleton_Some in H as [_ <-]. in_list.
Qed.

(** Once the list exists under "programmes[]", each further programme
    appends its code to it. *)
Lemma add_programmes_extend programmes (params : gmap string pval) l0 :
  params !! "programmes[]" = Some (PList l0) →
  Forall (λ p, is_Some (programme_map !! p)) programmes →
  ∃ codes,
    Forall2 (λ p c, programme_map !! p = Some c) programmes codes ∧
    add_programmes programmes params =
      Ok (<["programmes[]" := PList (l0 ++ codes)]> params).
Proof.
  intros Hl Hall. revert params l0 Hl.
  induction Hall as [|prog programmes [code Hcode] _ IH]; intros params l0 Hl.
  - exists []. split; [constructor|]. simpl.
    by rewrite app_nil_r, insert_id.
  - simpl. unfold dict_get. rewrite Hcode. simpl.
    unfold setdefault_append. rewrite Hl. simpl.
    destruct (IH (<["programmes[]" := PList (l0 ++ [code])]> params)
                (l0 ++ [code])) as (codes & Hcodes & ->).
    { apply lookup_insert_eq. }
    exists (code :: codes). split; [by constructor|].
    by rewrite insert_insert_eq, <-app_assoc.
Qed.

(** C10: with no programme selected the parameter map has no
    "programmes[]" field at all; with at least one, the field is present and
    holds exactly one code per selected programme, in selection order, each
    the programme's code in the three-entry table (6, 7 or 8). *)
Theorem programmes_field (token exchange_type : string)
    (programmes : list string) (start_date end_date : Date)
    (interval : string) (office_id : option Z) :
  is_Some (exchange_type_map !! exchange_type) →
  Forall (λ p, is_Some (programme_map !! p)) programmes →
  ∃ params,
    build_params token exchange_type programmes start_date end_date
      interval office_id = Ok params ∧
    (programmes = [] → params !! "programmes[]" = None) ∧
    (programmes ≠ [] → ∃ codes,
       params !! "programmes[]" = Some (PList codes) ∧
       Forall2 (λ p c, programme_map !! p = Some c ∧ c ∈ [6; 7; 8])
         programmes codes).
Proof.
  intros [ex Hex] Hall. unfold build_params, dict_get. rewrite Hex. simpl.
  set (base := <["access_token" := _]> _).
  assert (Hbase : base !! "programmes[]" = None).
  { subst base. by rewrite !lookup_insert_ne, lookup_empty. }
  destruct Hall as [|prog programmes [code Hcode] Hall].
  - exists base. split_and!; done.
  - simpl. unfold dict_get. rewrite Hcode. simpl.
    unfold setdefault_append. rewrite Hbase. simpl.
    destruct (add_programmes_extend programmes
                (<["programmes[]" := PList [code]]> base) [code])
      as (codes & Hcodes & ->); [apply lookup_insert_eq|done|].
    eexists. split_and!; [done..|]. intros _. exists (code :: codes).
    split; [apply lookup_insert_eq|].
    constructor; [eauto using programme_map_codes|].
    eapply Forall2_impl; [done|].
    intros p c Hc. split; [done|]. exact (programme_map_codes _ _ Hc).
Qed.

Lemma programmes_field_witness :
  ∃ params,
    build_params "token" "Incoming" ["Global Teacher"; "Global Volunteer"]
      {| dyear := 2024; dmonth := 1; dday := 1 |}
      {| dyear := 2024; dmonth := 12; dday := 31 |} "month" (Some 1609)
    = Ok params ∧
    params !! "programmes[]" = Some (PList [8; 6]).
Proof.
  destruct (programmes_field "token" "Incoming"
              ["Global Teacher"; "Global Volunteer"]
              {| dyear := 2024; dmonth := 1; dday := 1 |}
              {| dyear := 2024; dmonth := 12; dday := 31 |} "month" (Some 1609))
    as (params & Hparams & _ & Hsome).
  - by eexists; vm_compute.
  - repeat constructor; by eexists; vm_compute.
  - exists params. split; [done|].
    destruct Hsome as (codes & -> & Hcodes); [done|].
    apply Forall2_cons_inv_l in Hcodes as (c1 & ? & [Hc1 _] & Hcodes & ->).
    apply Forall2_cons_inv_l in Hcodes as (c2 & ? & [Hc2 _] & Hcodes & ->).
    apply Forall2_nil_inv_l in Hcodes as ->.
    vm_compute in Hc1, Hc2. by injection Hc1 as <-; injection Hc2 as <-.
Defined.


(** ** The aggregator *)

(** C1, as the code has it: when no two rows share a (date, stage) pair the
    pivot is built, the cell of a row whose count is an integer of magnitude
    at most 2^53 holds that count, the cell of a row whose count is null
    reads 0, and every cell that no row falls into reads 0; when two rows
    share a (date, stage) pair the pivot is not built: [pivot] raises
    [ValueError] and nothing is summed. *)
Theorem pivot_cells (df : DataFrame) :
  (NoDup (pivot_key <$> df) →
   ∃ p, pivot df = Ok p ∧
     (∀ r n, r ∈ df → count r = JInt n → Z.abs n ≤ 2 ^ 53 →
        cell p (date r) (status r) = JInt n) ∧
     (∀ r, r ∈ df → count r = JNull →
        cell p (date r) (status r) = JInt 0) ∧
     (∀ d c, (d, c) ∉ pivot_key <$> df → cell p d c = JInt 0)) ∧
  (∀ i j r1 r2, i ≠ j → df !! i = Some r1 → df !! j = Some r2 →
     pivot_key r1 = pivot_key r2 → pivot df = Raise ValueError).
Proof.
  assert (Hfst : ((λ r, (pivot_key r, count r)) <$> df).*1 = pivot_key <$> df).
  { by rewrite <-list_fmap_compose. }
  unfold pivot. split.
  - intros Hnodup. rewrite bool_decide_eq_true_2 by done.
    assert (Hrow : ∀ r, r ∈ df →
      (list_to_map ((λ r, (pivot_key r, count r)) <$> df) : PivotTable)
        !! (date r, status r) = Some (count r)).
    { intros r Hr. apply elem_of_list_to_map_1; [by rewrite Hfst|].
      apply list_elem_of_fmap. by exists r. }
    eexists. split; [done|]. unfold cell. split_and!.
    + intros r n Hr Hn _. by rewrite (Hrow r Hr), Hn.
    + intros r Hr Hn. by rewrite (Hrow r Hr), Hn.
    + intros d c Hdc. rewrite not_elem_of_list_to_map_1; [done|].
      by rewrite Hfst.
  - intros i j r1 r2 Hij Hi Hj Hkey.
    rewrite bool_decide_eq_false_2; [done|].
    intros Hnodup. apply Hij.
    eapply NoDup_lookup; [exact Hnodup| |].
    + rewrite list_lookup_fmap, Hi. done.
    + rewrite list_lookup_fmap, Hj. simpl. by rewrite Hkey.
Qed.

Lemma pivot_cells_witness :
  (∃ p, pivot small_table = Ok p ∧
     cell p (midnight_utc 2024 1 1) "Applied" = JInt 100 ∧
     cell p (midnight_utc 2024 1 1) "Accepted" = JInt 0) ∧
  pivot dup_table = Raise ValueError.
Proof.
  split.
  - destruct (proj1 (pivot_cells small_table))
      as (p & Hp & Hrow & _ & Hzero).
    { by apply (bool_decide_unpack _); vm_compute. }
    exists p. split_and!; [done| |].
    + apply (Hrow {| date := midnight_utc 2024 1 1; status := "Applied";
                     count := JInt 100 |}); [in_list|done|].
      by apply (bool_decide_unpack _); vm_compute.
    + apply Hzero. by apply (bool_decide_unpack _); vm_compute.
  - eapply (proj2 (pivot_cells dup_table) 0%nat 1%nat); [lia|done..].
Defined.

(** C1 as stated fails: two rows for 2024-01-01/"Applied" with counts 3 and
    4 give no pivot at all, so no cell holding their sum 7. *)
Lemma pivot_duplicates_not_summed :
  pivot dup_table = Raise ValueError ∧
  ¬ ∃ p, pivot dup_table = Ok p ∧
         cell p (midnight_utc 2024 1 1) "Applied" = JInt (3 + 4).
Proof.
  assert (H : pivot dup_table = Raise ValueError) by by vm_compute.
  split; [done|]. intros (p & Hp & _). by rewrite H in Hp.
Qed.

Lemma raises_only_bind {A B} (P : exn → Prop) (m : res A) (f : A → res B) :
  raises_only P m → (∀ a, raises_only P (f a)) → raises_only P (m ≫= f).
Proof.
  intros Hm Hf e. destruct m as [a|e']; simpl.
  - apply Hf.
  - intros [= ->]. by apply Hm.
Qed.

Lemma raises_only_Ok {A} (P : exn → Prop) (a : A) : raises_only P (Ok a).
Proof. by intros e. Qed.

Lemma series_sum_raises l : raises_only (λ e, e = TypeError) (series_sum l).
Proof.
  induction l as [|v l IH]; [apply raises_only_Ok|].
  destruct v; simpl; try by intros ? [= <-].
  apply raises_only_bind; [done|]. intros s. apply raises_only_Ok.
Qed.

Lemma series_sum_int l :
  Forall (λ v, ∃ n, v = JInt n) l → ∃ n, series_sum l = Ok n.
Proof.
  induction 1 as [|v l [n ->] _ [s IH]]; simpl; [by exists 0|].
  rewrite IH. simpl. by eexists.
Qed.

Lemma column_total_int (p : PivotTable) c :
  int_cells p → ∃ n, column_total p c = Ok n.
Proof.
  intros Hp. apply series_sum_int. unfold get_column.
  case_bool_decide; [|repeat constructor; by exists 0].
  apply Forall_fmap, Forall_forall. intros d _. unfold cell. simpl.
  destruct (p !! (d, c)) as [v|] eqn:Hv; [|by exists 0].
  destruct (Hp _ _ Hv) as [n ->]. by exists n.
Qed.

(** The guard: the quotient is taken only for a positive denominator, so the
    rate is always a value, and it is 0 for a denominator of 0. *)
Lemma guarded_rate_Ok num den :
  ∃ q, guarded_rate num den = Ok q ∧ (den = 0 → q = 0%Q).
Proof.
  unfold guarded_rate, py_truediv. destruct (0 <? den) eqn:Hden.
  - apply Z.ltb_lt in Hden. rewrite (proj2 (Z.eqb_neq den 0)) by lia.
    eexists. split; [done|lia].
  - by exists 0%Q.
Qed.

Lemma guarded_rate_raises num den :
  raises_only (λ e, e ≠ ZeroDivisionError) (guarded_rate num den).
Proof.
  intros e He. destruct (guarded_rate_Ok num den) as (q & Hq & _). congruence.
Qed.

Lemma column_total_raises p c :
  raises_only (λ e, e ≠ ZeroDivisionError) (column_total p c).
Proof. intros e He%series_sum_raises. by subst. Qed.

Lemma funnel_step_raises p i :
  raises_only (λ e, e ≠ ZeroDivisionError) (funnel_step p i).
Proof.
  unfold funnel_step.
  assert (Hget : ∀ j, raises_only (λ e, e ≠ ZeroDivisionError)
                        (list_get funnel_steps j)).
  { intros j e. unfold list_get. by destruct (_ !! j); intros [= <-]. }
  repeat (apply raises_only_bind;
          [first [apply Hget | apply column_total_raises
                 | apply guarded_rate_raises]|intros ?]).
  apply raises_only_Ok.
Qed.

Lemma funnel_loop_raises p range acc :
  raises_only (λ e, e ≠ ZeroDivisionError) (funnel_loop p range acc).
Proof.
  revert acc. induction range as [|i range IH]; intros acc; simpl.
  - apply raises_only_Ok.
  - apply raises_only_bind; [apply funnel_step_raises|]. intros s. apply IH.
Qed.

Lemma funnel_step_Ok p i :
  int_cells p → (i < 5)%nat → ∃ s, funnel_step p i = Ok s ∧ step_spec p i s.
Proof.
  intros Hp Hi. unfold funnel_step, list_get.
  destruct (lookup_lt_is_Some_2 funnel_steps i) as [a Ha]; [simpl; lia|].
  destruct (lookup_lt_is_Some_2 funnel_steps (i + 1)) as [b Hb]; [simpl; lia|].
  rewrite Ha, Hb. simpl.
  destruct (column_total_int p a Hp) as [n Hn].
  destruct (column_total_int p b Hp) as [m Hm].
  destruct (guarded_rate_Ok m n) as (q & Hq & Hzero).
  rewrite Hn, Hm. simpl. rewrite Hq. simpl.
  eexists. split; [done|]. rewrite Nat.add_1_r in Hb.
  unfold step_spec. split_and!; done.
Qed.

Lemma funnel_loop_Ok p range acc :
  int_cells p → Forall (λ i, i < 5)%nat range →
  ∃ new, funnel_loop p range acc = Ok (acc ++ new) ∧
         Forall2 (step_spec p) range new.
Proof.
  intros Hp Hrange. revert acc.
  induction Hrange as [|i range Hi _ IH]; intros acc; simpl.
  - exists []. by rewrite app_nil_r.
  - destruct (funnel_step_Ok p i Hp Hi) as (s & -> & Hs). simpl.
    destruct (IH (acc ++ [s])) as (new & -> & Hnew).
    exists (s :: new). split; [by rewrite <-app_assoc|by constructor].
Qed.

(** C4: no rate is ever a division error, whatever the pivot holds; and on
    a pivot of integer counts the funnel table is the five steps of the
    adjacent stage pairs, in order, each with its two column totals, where a
    from-total of 0 gives a conversion rate of 0, and the realization rate
    is 0 when the total applied is 0. *)
Theorem zero_denominator_rate_is_zero (p : PivotTable) :
  funnel_table p ≠ Raise ZeroDivisionError ∧
  realization p ≠ Raise ZeroDivisionError ∧
  (int_cells p →
   ∃ steps r,
     funnel_table p = Ok steps ∧
     length steps = 5%nat ∧
     Forall2 (step_spec p) (seq 0 5) steps ∧
     (∀ s, s ∈ steps → from_count s = 0 → conversion s = 0%Q) ∧
     realization p = Ok r ∧
     (column_total p "Applied" = Ok 0 → r = 0%Q)).
Proof.
  split_and!.
  - intros H. by apply funnel_loop_raises in H.
  - intros H. revert H. unfold realization.
    assert (Hr : raises_only (λ e, e ≠ ZeroDivisionError)
                   (column_total p "Applied" ≫= λ total_applied,
                    column_total p "Realized" ≫= λ total_realized,
                    guarded_rate total_realized total_applied)).
    { repeat (apply raises_only_bind; [apply column_total_raises|intros ?]).
      apply guarded_rate_raises. }
    intros H. by apply Hr in H.
  - intros Hp. unfold funnel_table.
    destruct (funnel_loop_Ok p (seq 0 5) [] Hp) as (steps & Hsteps & Hspec).
    { apply Forall_forall. intros i Hi%elem_of_seq. lia. }
    destruct (column_total_int p "Applied" Hp) as [applied Happlied].
    destruct (column_total_int p "Realized" Hp) as [realized Hrealized].
    destruct (guarded_rate_Ok realized applied) as (r & Hr & Hzero).
    exists steps, r. split_and!.
    + exact Hsteps.
    + apply Forall2_length in Hspec. by rewrite <-Hspec.
    + exact Hspec.
    + intros s [i Hi]%list_elem_of_lookup.
      destruct (Forall2_lookup_r _ _ _ _ _ Hspec Hi) as (j & _ & Hs).
      apply Hs.
    + unfold realization. rewrite Happlied, Hrealized. done.
    + rewrite Happlied. intros [= ->]. by apply Hzero.
Qed.

Lemma zero_denominator_rate_is_zero_witness :
  ∃ steps,
    funnel_table small_pivot = Ok steps ∧ length steps = 5%nat ∧
    (conversion <$> steps !! 1%nat) = Some 0%Q ∧
    realization small_pivot = Ok 0%Q.
Proof.
  destruct (zero_denominator_rate_is_zero small_pivot)
    as (_ & _ & Hint).
  destruct Hint as (steps & r & Hsteps & Hlen & _ & _ & Hr & _).
  { unfold small_pivot. simpl.
    apply map_Forall_insert_2; [by eexists|].
    apply map_Forall_insert_2; [by eexists|].
    apply map_Forall_empty. }
  exists steps. vm_compute in Hsteps. injection Hsteps as <-.
  vm_compute in Hr. injection Hr as <-. done.
Defined.

(** ** The render *)

(** [int] on some entity ids, with the database of Unicode 14.0: ASCII
    digits with surrounding whitespace, a sign or single underscores are
    read, and so are the decimal digits and the whitespace of other
    scripts; a control character such as U+001C, a decimal point, or more
    than 4300 digits are not. *)
Example py_int_examples :
  py_int unicode_14 "1609" = Some 1609 ∧
  py_int unicode_14 " +1_609 " = Some 1609 ∧
  py_int unicode_14 "-12" = Some (-12) ∧
  py_int unicode_14 "١٢٣" = Some 123 ∧
  py_int unicode_14 ("12" +:+ String "194" (String "160" "")) = Some 12 ∧
  py_int unicode_14 (String "028" "9") = None ∧
  py_int unicode_14 "16.09" = None ∧
  py_int unicode_14 "1__0" = None ∧
  py_int unicode_14 (String.concat "" (replicate 4300 "0")) = Some 0 ∧
  py_int unicode_14 (String.concat "" (replicate 4301 "0")) = None.
Proof. split_and!; vm_compute; reflexivity. Qed.

(** C6: when the entity id text does not parse as an integer (as "" and
    "abc" do not, whatever the Unicode database), the render stops on a
    validation message and sends no request: the log of requests and the
    cache are untouched, whatever the remote API would answer. The message
    is the entity id warning, or the token prompt when the token is missing
    too. *)
Theorem invalid_entity_id_halts (to_datetime : json → res Timestamp)
    (http_get : Z → gmap string pval → Response) (unicode : UnicodeData)
    (inp : Inputs) (now : Z) (w : World) :
  py_int unicode (entity_id_input inp) = None →
  py_int unicode "" = None ∧ py_int unicode "abc" = None ∧
  ∃ w', script to_datetime http_get unicode inp now w = (Stopped, w') ∧
    requests w' = requests w ∧
    cache w' = cache w ∧
    ui w' = ui w ++
      [ Title page_title;
        if String.eqb (access_token inp) ""
        then Info token_prompt
        else Warning "Please enter a valid numeric Entity ID" ].
Proof.
  intros Hint. split_and!; [done..|].
  unfold script, mbind, M_bind, st_show, st_stop. simpl.
  destruct (String.eqb (access_token inp) ""); simpl.
  - eexists. split_and!; [done..|]. simpl. by rewrite <-app_assoc.
  - rewrite Hint. simpl.
    eexists. split_and!; [done..|]. simpl. by rewrite <-app_assoc.
Qed.

Lemma invalid_entity_id_halts_witness :
  ∃ w', script to_datetime_iso (server analytics_response) unicode_14
          (sample_inputs "abc" id) 0 empty_world = (Stopped, w') ∧
    requests w' = [] ∧
    ui w' = [ Title page_title;
              Warning "Please enter a valid numeric Entity ID" ].
Proof.
  destruct (invalid_entity_id_halts to_datetime_iso (server analytics_response)
              unicode_14 (sample_inputs "abc" id) 0 empty_world)
    as (_ & _ & w' & Hrun & Hreq & _ & Hui); [reflexivity|].
  exists w'. split_and!; done.
Defined.

Lemma token_present token : token ≠ "" → String.eqb token "" = false.
Proof. intros H. by apply String.eqb_neq. Qed.

(** The body of the fetch, on a response whose status is not 200: the error
    line, then the decoded body and a stop, or the decoding error. *)
Lemma fetch_body_not_200 to_datetime http_get now token exchange_type
    programmes start_date end_date interval office_id params w :
  build_params token exchange_type programmes start_date end_date
    interval office_id = Ok params →
  status_code (http_get now params) ≠ 200 →
  fetch_body to_datetime http_get now token exchange_type programmes
    start_date end_date interval office_id w =
  let r := http_get now params in
  let w1 := shown (Error ("API request failed with status code "
                          +:+ pretty (status_code r))) (sent params w) in
  match body r with
  | JsonBody j => (Stopped, shown (JsonView j) w1)
  | TextBody _ => (Raised JSONDecodeError, w1)
  end.
Proof.
  intros Hparams Hstatus. unfold fetch_body. rewrite Hparams.
  unfold mbind, M_bind, lift, requests_get, st_show, st_stop. simpl.
  rewrite (proj2 (Z.eqb_neq _ _) Hstatus). simpl.
  unfold response_json. by destruct (body (http_get now params)).
Qed.

(** X19: when the fetch goes to the network and the status is not 2xx, the
    render ends without a result: one request was sent, no chart, table or
    metric is shown and nothing is cached. After the error line, a body
    that is JSON is shown whole, decoded, and the render stops; a body that
    is not JSON makes [response.json()] raise, and the render ends on that
    exception. *)
Theorem failed_fetch_aborts (to_datetime : json → res Timestamp)
    (http_get : Z → gmap string pval → Response) (unicode : UnicodeData)
    (inp : Inputs) (now : Z) (w : World) (office_id : Z)
    (params : gmap string pval) :
  access_token inp ≠ "" →
  py_int unicode (entity_id_input inp) = Some office_id →
  build_params (access_token inp) (selected_exchange_type inp)
    (selected_programmes inp) (start_date inp) (end_date inp) "month"
    (Some office_id) = Ok params →
  cache_lookup 3600
    (access_token inp, selected_exchange_type inp, selected_programmes inp,
     start_date inp, end_date inp, "month", Some office_id) now w = None →
  ¬ (200 ≤ status_code (http_get now params) < 300) →
  ∃ o w', script to_datetime http_get unicode inp now w = (o, w') ∧
    requests w' = requests w ++ [params] ∧
    cache w' = cache w ∧
    match body (http_get now params) with
    | JsonBody j =>
        o = Stopped ∧
        ui w' = ui w ++
          [ Title page_title;
            Error ("API request failed with status code "
                   +:+ pretty (status_code (http_get now params)));
            JsonView j ]
    | TextBody _ =>
        o = Raised JSONDecodeError ∧
        ui w' = ui w ++
          [ Title page_title;
            Error ("API request failed with status code "
                   +:+ pretty (status_code (http_get now params))) ]
    end.
Proof.
  intros Htoken Hint Hparams Hcache Hstatus.
  unfold script. unfold mbind at 1, M_bind at 1. unfold st_show at 1.
  unfold mbind at 1, M_bind at 1. rewrite (token_present _ Htoken).
  unfold mret at 1, M_ret at 1.
  unfold mbind at 1, M_bind at 1. rewrite Hint.
  unfold mret at 1, M_ret at 1.
  unfold mbind at 1, M_bind at 1.
  unfold fetch_exchange_data, cache_data.
  replace (cache_lookup _ _ _ (shown _ w)) with (@None DataFrame).
  rewrite (fetch_body_not_200 _ _ _ _ _ _ _ _ _ _ _ _ Hparams) by lia.
  simpl. destruct (body (http_get now params)) as [j|s]; simpl.
  - eexists _, _. split; [reflexivity|]. split_and!; try done.
    simpl. by rewrite <-!app_assoc.
  - eexists _, _. split; [reflexivity|]. split_and!; try done.
    simpl. by rewrite <-!app_assoc.
Qed.

Lemma failed_fetch_aborts_witness :
  ∃ w', script to_datetime_iso (server server_error) unicode_14
          (sample_inputs "1609" id) 0 empty_world = (Stopped, w') ∧
    length (requests w') = 1%nat ∧
    cache w' = [] ∧
    ui w' = [ Title page_title;
              Error "API request failed with status code 500";
              JsonView (JObj {[ "error" := JStr "internal error" ]}) ].
Proof.
  destruct (failed_fetch_aborts to_datetime_iso (server server_error)
              unicode_14 (sample_inputs "1609" id) 0 empty_world 1609
              sample_params)
    as (o & w' & Hrun & Hreq & Hcache & -> & Hui).
  - discriminate.
  - vm_compute. reflexivity.
  - reflexivity.
  - reflexivity.
  - simpl. lia.
  - exists w'. rewrite Hreq.
    split_and!; [exact Hrun|reflexivity|exact Hcache|exact Hui].
Defined.

(** C7 fails on the code: the error branch means to show the body, but it
    shows it through [response.json()]. A 502 answer whose body is an HTML
    page, as a gateway sends, ends the render on the decoding error after
    the error line alone: one request was sent, nothing is cached, and the
    body is not shown. *)
Theorem non_json_error_body_not_shown :
  script to_datetime_iso (server bad_gateway) unicode_14
    (sample_inputs "1609" id) 0 empty_world
  = (Raised JSONDecodeError,
     {| ui := [ Title page_title;
                Error "API request failed with status code 502" ];
        requests := [sample_params];
        cache := [] |}).
Proof. vm_compute. reflexivity. Qed.

(** A fetch body that returns has sent its request and shown nothing. *)
Lemma fetch_body_Done to_datetime http_get now token exchange_type
    programmes start_date end_date interval office_id w df w' :
  fetch_body to_datetime http_get now token exchange_type programmes
    start_date end_date interval office_id w = (Done df, w') →
  ∃ params, w' = sent params w.
Proof.
  unfold fetch_body, mbind, M_bind, lift, requests_get, st_show, st_stop.
  destruct (build_params _ _ _ _ _ _ _) as [params|]; [|done].
  destruct (status_code (http_get now params) =? 200); simpl.
  - destruct (response_json _) as [json_data|]; [|done].
    destruct (py_in "analytics" json_data) as [[]|]; simpl; [|done..].
    destruct (py_getitem json_data "analytics") as [data|]; [|done].
    destruct (normalize to_datetime data); [|done].
    intros [= _ <-]. by exists params.
  - by destruct (response_json _).
Qed.

Lemma fetch_exchange_data_Done_ui to_datetime http_get now token
    exchange_type programmes start_date end_date interval office_id w df w' :
  fetch_exchange_data to_datetime http_get now token exchange_type
    programmes start_date end_date interval office_id w = (Done df, w') →
  ui w' = ui w.
Proof.
  unfold fetch_exchange_data, cache_data.
  destruct (cache_lookup _ _ _ w); [by intros [= _ <-]|].
  destruct (fetch_body _ _ _ _ _ _ _ _ _ _ w) as [[df1| |] w1] eqn:Hbody;
    [|done..].
  intros [= _ <-]. by apply fetch_body_Done in Hbody as [params ->].
Qed.

(** What the render shows up to the funnel heading for a table that is not
    empty, and what it goes on with once the pivot and the funnel table are
    built. *)
Lemma render_table_chart inp (df : DataFrame) w :
  df ≠ [] →
  let statuses := unique (status <$> df) in
  let filtered_df := filter_statuses (select_statuses inp statuses) df in
  let w_chart :=
    shown (Header "Funnel Conversion Rates")
      (shown (PlotlyChart filtered_df (line_shape inp))
         (shown (Header "Exchange Trends Over Time")
            (shown (Multiselect "Select statuses to display" statuses statuses)
               (shown (Subheader "Filter Statuses") w)))) in
  render_table inp df w =
  match pivot filtered_df with
  | Raise e => (Raised e, w_chart)
  | Ok p =>
      match funnel_table p with
      | Raise e => (Raised e, w_chart)
      | Ok steps =>
          (applied ← lift (column_total p "Applied");
           _ ← st_show (Metric 0 "Total Applied" (MInt applied));
           approved ← lift (column_total p "Approved");
           _ ← st_show (Metric 1 "Total Approved" (MInt approved));
           realized ← lift (column_total p "Realized");
           _ ← st_show (Metric 2 "Total Realized" (MInt realized));
           rate ← lift (realization p);
           _ ← st_show (Metric 3 "Realization Rate" (MRate rate));
           mret {| pivot_df := p; funnel_df := steps;
                   total_applied := applied; total_approved := approved;
                   total_realized := realized; realization_rate := rate |})
            (shown (Columns 4)
               (shown (Header "Key Metrics") (shown (Table steps) w_chart)))
      end
  end.
Proof.
  intros Hdf statuses filtered_df w_chart. unfold render_table.
  rewrite bool_decide_eq_false_2 by done.
  unfold mbind at 1 2 3 4 5 6 7, M_bind at 1 2 3 4 5 6 7. simpl.
  fold statuses. fold filtered_df. unfold lift at 1.
  destruct (pivot filtered_df) as [p|e]; [|done].
  unfold mbind at 1, M_bind at 1, lift at 1.
  by destruct (funnel_table p) as [steps|e].
Qed.

(** The pivot of no rows, and what the funnel loop and the metrics make of
    it. *)
Lemma pivot_nil : pivot [] = Ok ∅.
Proof. reflexivity. Qed.

Lemma funnel_table_empty : funnel_table ∅ = Ok empty_funnel.
Proof. vm_compute. reflexivity. Qed.

Lemma column_total_empty c : column_total ∅ c = Ok 0.
Proof.
  unfold column_total, get_column.
  rewrite bool_decide_eq_false_2; [done|].
  unfold columns. rewrite dom_empty_L, set_map_empty.
  apply not_elem_of_empty.
Qed.

Lemma realization_empty : realization ∅ = Ok 0%Q.
Proof. unfold realization. by rewrite !column_total_empty. Qed.

(** C2, as the code has it: the emptiness test is made on the table the
    fetch returns, before the status selection. When that table is empty
    the render stops on the "no data" warning, with no chart, table or
    metric: the page gets a warning and no error line or response body,
    which is what tells it from a transport or schema error. A table that
    is not empty but whose rows are all removed by the status selection and
    the "Sign Up" filter is not caught: the render goes on to its end with
    the chart of no rows, the empty pivot, the five funnel steps without
    counts and the four metrics at 0, and no warning. *)
Theorem empty_fetch_reports_no_data (inp : Inputs) (exchange_df : DataFrame)
    (w : World) :
  let statuses := unique (status <$> exchange_df) in
  (exchange_df = [] →
   render_table inp exchange_df w =
     (Stopped,
      shown (Warning "No data returned from the API for the selected filters.")
        w)) ∧
  (exchange_df ≠ [] →
   filter_statuses (select_statuses inp statuses) exchange_df = [] →
   ∃ agg w',
     render_table inp exchange_df w = (Done agg, w') ∧
     pivot_df agg = ∅ ∧
     funnel_df agg = empty_funnel ∧
     total_applied agg = 0 ∧ total_approved agg = 0 ∧
     total_realized agg = 0 ∧ realization_rate agg = 0%Q ∧
     requests w' = requests w ∧
     cache w' = cache w ∧
     ui w' = ui w ++
       [ Subheader "Filter Statuses";
         Multiselect "Select statuses to display" statuses statuses;
         Header "Exchange Trends Over Time";
         PlotlyChart [] (line_shape inp);
         Header "Funnel Conversion Rates";
         Table empty_funnel;
         Header "Key Metrics";
         Columns 4;
         Metric 0 "Total Applied" (MInt 0);
         Metric 1 "Total Approved" (MInt 0);
         Metric 2 "Total Realized" (MInt 0);
         Metric 3 "Realization Rate" (MRate 0) ]).
Proof.
  intros statuses. split.
  - intros ->. reflexivity.
  - intros Hdf Hfiltered.
    rewrite (render_table_chart inp exchange_df w Hdf). fold statuses.
    rewrite Hfiltered, pivot_nil, funnel_table_empty.
    unfold mbind, M_bind.
    rewrite !column_total_empty, realization_empty. simpl.
    eexists _, _. split; [reflexivity|]. simpl.
    split_and!; [done..|]. by rewrite <-!app_assoc.
Qed.

Lemma empty_fetch_reports_no_data_witness :
  render_table (sample_inputs "1609" id) [] empty_world =
    (Stopped,
     {| ui := [ Warning "No data returned from the API for the selected filters." ];
        requests := []; cache := [] |}) ∧
  ∃ agg w',
    render_table (sample_inputs "1609" (λ _, ["Realized"])) small_table
      empty_world = (Done agg, w') ∧
    pivot_df agg = ∅ ∧
    realization_rate agg = 0%Q ∧
    length (ui w') = 12%nat.
Proof.
  split.
  - by apply (empty_fetch_reports_no_data (sample_inputs "1609" id) []
                empty_world).
  - destruct (proj2 (empty_fetch_reports_no_data
                       (sample_inputs "1609" (λ _, ["Realized"]))
                       small_table empty_world))
      as (agg & w' & Hrun & Hpivot & _ & _ & _ & _ & Hrate & _ & _ & Hui);
      [discriminate|vm_compute; reflexivity|].
    exists agg, w'. split_and!; [exact Hrun|exact Hpivot|exact Hrate|].
    by rewrite Hui.
Defined.

(** C2 as stated fails: with one "Applied" row fetched and every status
    deselected, the table is empty after the filters, yet the render goes
    on to its end: it draws the chart of no rows, builds the empty pivot,
    and shows the funnel table and the four metrics; no "no data" warning
    appears. *)
Lemma all_statuses_deselected_still_renders :
  ∃ agg w',
    script to_datetime_iso (server analytics_response) unicode_14
      (sample_inputs "1609" (λ _, [])) 0 empty_world = (Done agg, w') ∧
    filter_statuses [] [ {| date := midnight_utc 2024 1 1; status := "Applied";
                            count := JInt 10 |} ] = [] ∧
    pivot_df agg = ∅ ∧
    length (funnel_df agg) = 5%nat ∧
    ui w' =
      [ Title page_title;
        Subheader "Filter Statuses";
        Multiselect "Select statuses to display" ["Applied"] ["Applied"];
        Header "Exchange Trends Over Time";
        PlotlyChart [] "linear";
        Header "Funnel Conversion Rates";
        Table (funnel_df agg);
        Header "Key Metrics";
        Columns 4;
        Metric 0 "Total Applied" (MInt 0);
        Metric 1 "Total Approved" (MInt 0);
        Metric 2 "Total Realized" (MInt 0);
        Metric 3 "Realization Rate" (MRate 0) ].
Proof. eexists _, _. split_and!; vm_compute; reflexivity. Qed.

(** ** The cache *)

(** The body of the fetch never touches the cache. *)
Lemma fetch_body_cache to_datetime http_get now token exchange_type
    programmes start_date end_date interval office_id w o w' :
  fetch_body to_datetime http_get now token exchange_type programmes
    start_date end_date interval office_id w = (o, w') →
  cache w' = cache w.
Proof.
  unfold fetch_body, mbind, M_bind, lift, requests_get, st_show, st_stop.
  destruct (build_params _ _ _ _ _ _ _) as [params|]; [|by intros [= _ <-]].
  destruct (status_code (http_get now params) =? 200); simpl.
  - destruct (response_json _) as [json_data|]; [|by intros [= _ <-]].
    destruct (py_in "analytics" json_data) as [[]|]; simpl;
      [|by intros [= _ <-]..].
    destruct (py_getitem json_data "analytics") as [data|];
      [|by intros [= _ <-]].
    destruct (normalize to_datetime data); by intros [= _ <-].
  - destruct (response_json _); by intros [= _ <-].
Qed.

(** C8, as the code has it: what is cached is the value the fetch returns,
    the normalized table, and only when the fetch returns. After a fetch
    that returned a table, the cache holds that table under the seven
    arguments, stored at the time of the fetch when it went to the network;
    any fetch with the same arguments made less than 3600 seconds after the
    entry was stored returns that same table and leaves the world as it
    was: no request is sent, whatever the remote API would answer by then.
    A fetch that stops or raises leaves the cache as it was. *)
Theorem cached_fetch_reused (to_datetime : json → res Timestamp)
    (http1 http2 : Z → gmap string pval → Response) (t1 : Z)
    (token exchange_type : string) (programmes : list string)
    (start_date end_date : Date) (interval : string) (office_id : option Z)
    (w w1 : World) (o : outcome DataFrame) :
  let key := (token, exchange_type, programmes, start_date, end_date,
              interval, office_id) in
  fetch_exchange_data to_datetime http1 t1 token exchange_type programmes
    start_date end_date interval office_id w = (o, w1) →
  (∀ df, o = Done df →
     ∃ stored,
       cache_find key (cache w1) = Some (stored, df) ∧
       t1 < stored + 3600 ∧
       (cache_lookup 3600 key t1 w = None → stored = t1) ∧
       ∀ t2, t2 < stored + 3600 →
         fetch_exchange_data to_datetime http2 t2 token exchange_type
           programmes start_date end_date interval office_id w1
         = (Done df, w1)) ∧
  ((∀ df, o ≠ Done df) → cache w1 = cache w).
Proof.
  intros key. unfold fetch_exchange_data, cache_data. fold key.
  intros Hfetch. split.
  - intros df ->. unfold cache_lookup in *.
    destruct (cache_find key (cache w)) as [[stored df0]|] eqn:Hfind.
    + destruct (t1 <? stored + 3600) eqn:Hfresh.
      * injection Hfetch as <- <-. apply Z.ltb_lt in Hfresh.
        exists stored. rewrite Hfind. split_and!; [done..|].
        intros t2 Ht2. by rewrite (proj2 (Z.ltb_lt _ _) Ht2).
      * destruct (fetch_body _ _ _ _ _ _ _ _ _ _ w) as [[df1| |] w0];
          [|done..].
        injection Hfetch as <- <-. exists t1. simpl.
        rewrite decide_True by done. split_and!; [done|lia|done|].
        intros t2 Ht2. by rewrite (proj2 (Z.ltb_lt _ _) Ht2).
    + destruct (fetch_body _ _ _ _ _ _ _ _ _ _ w) as [[df1| |] w0];
        [|done..].
      injection Hfetch as <- <-. exists t1. simpl.
      rewrite decide_True by done. split_and!; [done|lia|done|].
      intros t2 Ht2. by rewrite (proj2 (Z.ltb_lt _ _) Ht2).
  - intros Ho. destruct (cache_lookup _ _ _ w) as [df|].
    { injection Hfetch as <- _. by destruct (Ho df). }
    destruct (fetch_body _ _ _ _ _ _ _ _ _ _ w) as [[df1| |] w0] eqn:Hbody.
    + injection Hfetch as <- _. by destruct (Ho df1).
    + injection Hfetch as _ <-. by eapply fetch_body_cache.
    + injection Hfetch as _ <-. by eapply fetch_body_cache.
Qed.

Lemma cached_fetch_reused_witness :
  ∃ df w1,
    fetch_exchange_data to_datetime_iso (server analytics_response) 0
      "token" "Outgoing" ["Global Talent"]
      {| dyear := 2024; dmonth := 1; dday := 1 |}
      {| dyear := 2024; dmonth := 12; dday := 31 |} "month" (Some 1609)
      empty_world = (Done df, w1) ∧
    fetch_exchange_data to_datetime_iso (server server_error) 3599
      "token" "Outgoing" ["Global Talent"]
      {| dyear := 2024; dmonth := 1; dday := 1 |}
      {| dyear := 2024; dmonth := 12; dday := 31 |} "month" (Some 1609)
      w1 = (Done df, w1) ∧
    length (requests w1) = 1%nat.
Proof.
  destruct (fetch_exchange_data to_datetime_iso (server analytics_response) 0
      "token" "Outgoing" ["Global Talent"]
      {| dyear := 2024; dmonth := 1; dday := 1 |}
      {| dyear := 2024; dmonth := 12; dday := 31 |} "month" (Some 1609)
      empty_world) as [o w1] eqn:Hfetch.
  assert (Ho : ∃ df, o = Done df ∧ length (requests w1) = 1%nat).
  { vm_compute in Hfetch. injection Hfetch as <- <-. by eexists. }
  destruct Ho as (df & -> & Hreq).
  exists df, w1. split; [reflexivity|]. split; [|exact Hreq].
  destruct (proj1 (cached_fetch_reused to_datetime_iso
                     (server analytics_response) (server server_error) 0
                     _ _ _ _ _ _ _ empty_world w1 (Done df) Hfetch)
              df eq_refl) as (stored & _ & _ & Hstored & Hreuse).
  apply Hreuse. rewrite Hstored; [lia|reflexivity].
Defined.

(** C8 as stated fails: two fetches with identical arguments one second
    apart, the first answered with status 500, both go to the network: the
    first stored nothing, and the second sends a request of its own. *)
Lemma failed_fetch_not_cached :
  ∃ w1 w2,
    fetch_exchange_data to_datetime_iso (server server_error) 0
      "token" "Outgoing" ["Global Talent"]
      {| dyear := 2024; dmonth := 1; dday := 1 |}
      {| dyear := 2024; dmonth := 12; dday := 31 |} "month" (Some 1609)
      empty_world = (Stopped, w1) ∧
    fetch_exchange_data to_datetime_iso (server server_error) 1
      "token" "Outgoing" ["Global Talent"]
      {| dyear := 2024; dmonth := 1; dday := 1 |}
      {| dyear := 2024; dmonth := 12; dday := 31 |} "month" (Some 1609)
      w1 = (Stopped, w2) ∧
    length (requests w1) = 1%nat ∧
    length (requests w2) = 2%nat.
Proof. eexists _, _. split_and!; reflexivity. Qed.

(** * Further properties of the script *)

#[local] Set Warnings "-clear-no-such-hyp".

(** ** The normalizer, continued *)

Lemma normalize_Ok_groups to_datetime data df :
  normalize to_datetime data = Ok df →
  ∃ groups,
    Forall2 (λ '(key, label) g, stage_group to_datetime data key label g)
      STATUS_MAP groups ∧
    df = concat groups.
Proof.
  unfold normalize. intros (groups & Hgroups & ->)%stage_loop_Ok.
  by exists groups.
Qed.

Lemma normalize_rows_labelled to_datetime data df :
  normalize to_datetime data = Ok df →
  Forall (λ r, status r ∈ stage_labels) df.
Proof.
  intros (groups & Hgroups & ->)%normalize_Ok_groups.
  apply Forall_forall. intros r Hr.
  destruct (Forall2_concat_elem _ _ _ _ Hgroups Hr)
    as ([k l] & g & Hkl & Hg & Hrg).
  rewrite (stage_group_status _ _ _ _ _ _ Hg Hrg).
  apply list_elem_of_fmap. by exists (k, l).
Qed.

Lemma sign_up_not_a_label : "Sign Up" ∉ stage_labels.
Proof.
  unfold stage_labels, STATUS_MAP. simpl.
  rewrite !elem_of_cons, elem_of_nil. intros H. destruct_or!; done.
Qed.

Lemma filter_sign_up_labelled (df : DataFrame) :
  Forall (λ r, status r ∈ stage_labels) df →
  filter (λ r, status r ≠ "Sign Up") df = df.
Proof.
  induction 1 as [|r rows Hr _ IH]; [done|].
  rewrite filter_cons_True, IH; [done|].
  intros Heq. rewrite Heq in Hr. by apply sign_up_not_a_label.
Qed.

(** X6: every row the normalizer returns carries one of the six stage
    labels. No row has the status "Sign Up", so the filter that removes
    such rows returns the normalizer's table unchanged. *)
Theorem normalize_labels (to_datetime : json → res Timestamp)
    (data : json) (df : DataFrame) :
  normalize to_datetime data = Ok df →
  Forall (λ r, status r ∈ stage_labels) df ∧
  filter (λ r, status r ≠ "Sign Up") df = df.
Proof.
  intros Hdf. pose proof (normalize_rows_labelled _ _ _ Hdf) as Hlabels.
  split; [exact Hlabels|]. by apply filter_sign_up_labelled.
Qed.

Lemma normalize_labels_witness :
  ∃ df, normalize to_datetime_iso (JObj sparse_payload) = Ok df ∧
    (status <$> df) = ["Applied"; "Applied"; "Realized"] ∧
    filter (λ r, status r ≠ "Sign Up") df = df.
Proof.
  destruct (normalize to_datetime_iso (JObj sparse_payload))
    as [df|e] eqn:Hdf; [|by vm_compute in Hdf].
  exists df. split; [done|]. split.
  - vm_compute in Hdf. by injection Hdf as <-.
  - exact (proj2 (normalize_labels to_datetime_iso _ _ Hdf)).
Defined.

Lemma stage_step_same_stage to_datetime (o o' : gmap string json)
    key label rows :
  o !! key = o' !! key →
  stage_step to_datetime (JObj o) key label rows =
  stage_step to_datetime (JObj o') key label rows.
Proof. intros Hkey. unfold stage_step. simpl. by rewrite Hkey. Qed.

Lemma stage_loop_same_stages to_datetime (o o' : gmap string json)
    stages rows :
  (∀ key, key ∈ stages.*1 → o !! key = o' !! key) →
  stage_loop to_datetime (JObj o) stages rows =
  stage_loop to_datetime (JObj o') stages rows.
Proof.
  revert rows. induction stages as [|[key label] stages IH];
    intros rows Hsame; [done|]. simpl.
  rewrite (stage_step_same_stage _ o o') by (apply Hsame; simpl; left).
  destruct (stage_step _ _ _ _ _) as [rows'|e]; simpl; [|done].
  apply IH. intros k Hk. apply Hsame. simpl. by right.
Qed.

(** X7: the normalizer reads the payload under the six stage keys and
    nowhere else: two payload objects that agree on those keys give the
    same result, table or exception; in particular a payload with none of
    the six keys gives the empty table, whatever else it holds. *)
Theorem normalize_only_stage_keys (to_datetime : json → res Timestamp)
    (o o' : gmap string json) :
  same_stages o o' →
  normalize to_datetime (JObj o) = normalize to_datetime (JObj o') ∧
  ((∀ key, key ∈ STATUS_MAP.*1 → o !! key = None) →
   normalize to_datetime (JObj o) = Ok []).
Proof.
  intros Hsame. split.
  - unfold normalize. apply stage_loop_same_stages. exact Hsame.
  - intros Hnone. unfold normalize.
    rewrite (stage_loop_same_stages _ o ∅); [done|].
    intros key Hkey. by rewrite Hnone, lookup_empty.
Qed.

Lemma normalize_only_stage_keys_witness :
  normalize to_datetime_iso
    (JObj (<["took" := JInt 12]> (<["total_signup" := JNull]> applied_only)))
  = normalize to_datetime_iso (JObj applied_only).
Proof.
  refine (proj1 (normalize_only_stage_keys to_datetime_iso _ _ _)).
  intros key Hkey. unfold STATUS_MAP in Hkey. simpl in Hkey.
  rewrite !elem_of_cons, elem_of_nil in Hkey.
  destruct_or!; subst; done.
Defined.

(** X8: missing data inside a bucket is not tolerated the way a missing
    stage is. When a stage's bucket array holds a bucket that is not an
    object, or an object without "key_as_string" or without "doc_count",
    the normalizer raises and returns no table at all, not even the rows of
    the other buckets and stages. *)
Theorem unreadable_bucket_fails (to_datetime : json → res Timestamp)
    (o s a : gmap string json) (key label : string)
    (bs : list json) (b : json) :
  (key, label) ∈ STATUS_MAP →
  o !! key = Some (JObj s) →
  s !! parent_key key = Some (JObj a) →
  a !! "buckets" = Some (JArr bs) →
  b ∈ bs →
  ((∀ m, b ≠ JObj m) ∨
   ∃ m, b = JObj m ∧
     (m !! "key_as_string" = None ∨ m !! "doc_count" = None)) →
  ∃ e, normalize to_datetime (JObj o) = Raise e.
Proof.
  intros Hin Hk Hp Hb Hbs Hbad.
  destruct (normalize to_datetime (JObj o)) as [df|e] eqn:Hdf; [|by exists e].
  exfalso.
  apply normalize_Ok_groups in Hdf as (groups & Hgroups & _).
  apply list_elem_of_lookup in Hin as [i Hi].
  destruct (Forall2_lookup_l _ _ _ _ _ Hgroups Hi) as (g & _ & bs' & Hbs' & Hg).
  rewrite (stage_buckets_array _ _ _ _ _ Hk Hp Hb) in Hbs'.
  injection Hbs' as <-.
  apply list_elem_of_lookup in Hbs as [j Hj].
  destruct (Forall2_lookup_l _ _ _ _ _ Hg Hj) as (r & _ & Hr).
  apply bucket_row_Ok in Hr as (k & Hkey & _ & _ & Hcount).
  destruct Hbad as [Hobj | (m & -> & [Hm | Hm])].
  - destruct b; try done. by destruct (Hobj o0).
  - simpl in Hkey. by rewrite Hm in Hkey.
  - simpl in Hcount. by rewrite Hm in Hcount.
Qed.

Lemma unreadable_bucket_fails_witness :
  ∃ e, normalize to_datetime_iso
         (JObj {[ "total_applications" :=
                    JObj (applications
                            [ bucket "2024-01-01T00:00:00Z" 10;
                              JObj {[ "key_as_string" :=
                                        JStr "2024-02-01T00:00:00Z" ]} ]) ]})
       = Raise e.
Proof.
  eapply (unreadable_bucket_fails to_datetime_iso _ _ _
            "total_applications" "Applied" _
            (JObj {[ "key_as_string" := JStr "2024-02-01T00:00:00Z" ]})).
  - in_list.
  - reflexivity.
  - reflexivity.
  - reflexivity.
  - in_list.
  - right. eexists. split; [reflexivity|]. right. reflexivity.
Defined.

Lemma stage_buckets_null data key :
  stage_null data key → stage_buckets data key = Raise TypeError.
Proof.
  intros (o & -> & [Hk | (s & Hk & [Hp | (a & Hp & Hb)])]);
    unfold stage_buckets; simpl; rewrite Hk; simpl.
  - done.
  - by rewrite Hp.
  - rewrite Hp. simpl. by rewrite Hb.
Qed.

(** X20: a null is not missing data. When the value of a stage key, or its
    sub-object, or the sub-object's "buckets" entry is there and is null,
    the stage's iteration raises [TypeError] whatever rows were collected,
    and the normalizer returns no table. *)
Theorem null_stage_raises (to_datetime : json → res Timestamp)
    (data : json) (key label : string) :
  stage_null data key →
  (∀ rows, stage_step to_datetime data key label rows = Raise TypeError) ∧
  ((key, label) ∈ STATUS_MAP →
   ∀ df, normalize to_datetime data ≠ Ok df).
Proof.
  intros Hnull. split.
  - intros rows.
    by rewrite stage_step_buckets, (stage_buckets_null _ _ Hnull).
  - intros [i Hi]%list_elem_of_lookup df Hdf. unfold normalize in Hdf.
    apply stage_loop_Ok in Hdf as (groups & Hgroups & _).
    destruct (Forall2_lookup_l _ _ _ _ _ Hgroups Hi) as (g & _ & Hg).
    destruct Hg as (bs & Hbs & _).
    by rewrite (stage_buckets_null _ _ Hnull) in Hbs.
Qed.

Lemma null_stage_raises_witness :
  stage_step to_datetime_iso (JObj null_buckets)
    "total_applications" "Applied" [] = Raise TypeError ∧
  ∀ df, normalize to_datetime_iso (JObj null_stage) ≠ Ok df.
Proof.
  split.
  - apply (null_stage_raises to_datetime_iso (JObj null_buckets)
             "total_applications" "Applied").
    exists null_buckets. split; [done|]. right.
    eexists. split; [reflexivity|]. right.
    eexists. split; reflexivity.
  - apply (null_stage_raises to_datetime_iso (JObj null_stage)
             "total_applications" "Applied"); [|in_list].
    exists null_stage. split; [done|]. by left.
Defined.

(** ** The query parameters, continued *)

(** Adding the programmes touches no entry but "programmes[]". *)
Lemma add_programmes_other programmes (params params' : gmap string pval) k :
  k ≠ "programmes[]" →
  add_programmes programmes params = Ok params' →
  params' !! k = params !! k.
Proof.
  intros Hk. revert params.
  induction programmes as [|prog programmes IH]; intros params; simpl.
  - by intros [= <-].
  - intros (code & _ & H)%res_bind_Ok.
    apply res_bind_Ok in H as (params1 & Hset & H).
    rewrite (IH _ H). unfold setdefault_append in Hset.
    destruct (params !! "programmes[]") as [[]|]; simplify_eq;
      by rewrite lookup_insert_ne.
Qed.

(** X2: whenever the parameters can be built, they hold the token, the two
    dates in ISO form, the interval and the office id as given, and the
    same word under "exchange_type" and under "histogram[type]": "person"
    for "Outgoing", "opportunity" for "Incoming", never anything else. The
    only other entry there can be is "programmes[]". *)
Theorem request_fields (token exchange_type : string)
    (programmes : list string) (start_date end_date : Date)
    (interval : string) (office_id : option Z) (params : gmap string pval) :
  build_params token exchange_type programmes start_date end_date
    interval office_id = Ok params →
  ∃ kind,
    exchange_type_map !! exchange_type = Some kind ∧
    (exchange_type = "Outgoing" ∧ kind = "person" ∨
     exchange_type = "Incoming" ∧ kind = "opportunity") ∧
    params !! "exchange_type" = Some (PStr kind) ∧
    params !! "histogram[type]" = Some (PStr kind) ∧
    params !! "start_date" = Some (PStr (isoformat start_date)) ∧
    params !! "end_date" = Some (PStr (isoformat end_date)) ∧
    params !! "histogram[interval]" = Some (PStr interval) ∧
    params !! "histogram[office_id]" = Some (office_param office_id) ∧
    params !! "access_token" = Some (PStr token) ∧
    dom params ⊆ {[ "start_date"; "end_date"; "histogram[type]";
                    "histogram[interval]"; "exchange_type";
                    "histogram[office_id]"; "access_token";
                    "programmes[]" ]}.
Proof.
  unfold build_params, dict_get.
  destruct (exchange_type_map !! exchange_type) as [kind|] eqn:Hkind;
    [|done]. simpl.
  set (base := <["access_token" := _]> _). intros Hadd.
  assert (Hother : ∀ k, k ≠ "programmes[]" → params !! k = base !! k).
  { intros k Hk. by eapply add_programmes_other. }
  exists kind. split; [done|]. split.
  { unfold exchange_type_map in Hkind.
    apply lookup_insert_Some in Hkind as [[<- <-]|[_ Hkind]]; [by left|].
    apply lookup_singleton_Some in Hkind as [<- <-]. by right. }
  split_and!; try (rewrite Hother by done; subst base;
                   by simplify_map_eq).
  intros k [v Hv]%elem_of_dom.
  destruct (decide (k = "programmes[]")) as [->|Hk]; [set_solver|].
  rewrite Hother in Hv by done. subst base.
  repeat (apply lookup_insert_Some in Hv as [[<- _]|[_ Hv]]; [set_solver|]).
  by rewrite lookup_empty in Hv.
Qed.

Lemma request_fields_witness :
  ∃ params,
    build_params "token" "Outgoing" []
      {| dyear := 1; dmonth := 12; dday := 31 |}
      {| dyear := 2024; dmonth := 3; dday := 5 |} "month" (Some 1609)
    = Ok params ∧
    params !! "start_date" = Some (PStr "0001-12-31") ∧
    params !! "end_date" = Some (PStr "2024-03-05") ∧
    params !! "exchange_type" = Some (PStr "person") ∧
    params !! "histogram[office_id]" = Some (PInt 1609).
Proof.
  destruct (build_params "token" "Outgoing" []
              {| dyear := 1; dmonth := 12; dday := 31 |}
              {| dyear := 2024; dmonth := 3; dday := 5 |} "month" (Some 1609))
    as [params|e] eqn:Hparams; [|by vm_compute in Hparams].
  exists params. split; [done|].
  destruct (request_fields _ _ _ _ _ _ _ _ Hparams)
    as (kind & Hkind & _ & Hex & _ & Hstart & Hend & _ & Hoffice & _).
  vm_compute in Hkind. injection Hkind as <-.
  split_and!; [by rewrite Hstart|by rewrite Hend|exact Hex|exact Hoffice].
Defined.

(** X3: a programme name or an exchange type that is not in the script's
    tables stops the fetch with a [KeyError] naming it, before any request
    is sent and before anything is shown or cached. *)
Theorem unknown_selection_raises (to_datetime : json → res Timestamp)
    (http_get : Z → gmap string pval → Response) (now : Z)
    (token exchange_type : string) (known : list string) (bad : string)
    (rest : list string) (start_date end_date : Date) (interval : string)
    (office_id : option Z) (w : World) :
  Forall (λ p, is_Some (programme_map !! p)) known →
  programme_map !! bad = None →
  fetch_exchange_data to_datetime http_get now token exchange_type
    (known ++ bad :: rest) start_date end_date interval office_id w =
  match cache_lookup 3600
          (token, exchange_type, known ++ bad :: rest, start_date,
           end_date, interval, office_id) now w with
  | Some df => (Done df, w)
  | None =>
      match exchange_type_map !! exchange_type with
      | Some _ => (Raised (KeyError bad), w)
      | None => (Raised (KeyError exchange_type), w)
      end
  end.
Proof.
  intros Hknown Hbad. unfold fetch_exchange_data, cache_data.
  destruct (cache_lookup _ _ _ w); [done|].
  unfold fetch_body, mbind, M_bind, lift, build_params.
  unfold dict_get at 1 2.
  destruct (exchange_type_map !! exchange_type) as [kind|]; [|done].
  simpl. set (base := <["access_token" := _]> _).
  assert (Hadd : ∀ params : gmap string pval,
            (∀ l, params !! "programmes[]" = Some l → ∃ codes, l = PList codes) →
            add_programmes (known ++ bad :: rest) params
            = Raise (KeyError bad)).
  { induction Hknown as [|prog known [code Hcode] _ IH]; intros params Hl.
    - simpl. unfold dict_get. by rewrite Hbad.
    - simpl. unfold dict_get. rewrite Hcode. simpl.
      unfold setdefault_append.
      destruct (params !! "programmes[]") as [v|] eqn:Hv; simpl.
      + destruct (Hl v eq_refl) as [codes ->]. simpl. apply IH.
        intros l. rewrite lookup_insert_eq. intros [= <-]. by eexists.
      + apply IH. intros l. rewrite lookup_insert_eq. intros [= <-].
        by eexists. }
  rewrite Hadd; [done|].
  intros l. subst base. by rewrite !lookup_insert_ne, lookup_empty.
Qed.

Lemma unknown_selection_raises_witness :
  fetch_exchange_data to_datetime_iso (server analytics_response) 0
    "token" "Outgoing" (["Global Talent"] ++ "Global Intern" :: [])
    {| dyear := 2024; dmonth := 1; dday := 1 |}
    {| dyear := 2024; dmonth := 12; dday := 31 |} "month" (Some 1609)
    empty_world
  = (Raised (KeyError "Global Intern"), empty_world).
Proof.
  rewrite (unknown_selection_raises to_datetime_iso
             (server analytics_response) 0 "token" "Outgoing"
             ["Global Talent"] "Global Intern" []).
  - reflexivity.
  - repeat constructor. by eexists.
  - reflexivity.
Defined.

(** ** The fetch, continued *)

(** Past the token and entity id checks, a render is the fetch followed by
    the rendering of its table. *)
Lemma script_fetch_then_render to_datetime http_get unicode inp now w office_id :
  access_token inp ≠ "" →
  py_int unicode (entity_id_input inp) = Some office_id →
  script to_datetime http_get unicode inp now w =
  (fetch_exchange_data to_datetime http_get now (access_token inp)
     (selected_exchange_type inp) (selected_programmes inp)
     (start_date inp) (end_date inp) "month" (Some office_id)
   ≫= render_table inp)
    (shown (Title page_title) w).
Proof.
  intros Htoken Hint.
  unfold script. unfold mbind at 1, M_bind at 1. unfold st_show at 1.
  unfold mbind at 1, M_bind at 1. rewrite (token_present _ Htoken).
  unfold mret at 1, M_ret at 1.
  unfold mbind at 1, M_bind at 1. rewrite Hint.
  unfold mret at 1, M_ret at 1.
  reflexivity.
Qed.

(** X4: when the fetch goes to the network and the answer has status 200
    but a JSON body without "analytics" at its top level, the render shows
    the error line and then the whole decoded body, and stops: no table is
    returned, nothing is cached, and no chart, table or metric is shown. A
    status-200 body that is not JSON ends the render on the decoding
    error instead, with nothing shown. *)
Theorem missing_analytics_aborts (to_datetime : json → res Timestamp)
    (http_get : Z → gmap string pval → Response) (unicode : UnicodeData)
    (inp : Inputs) (now : Z) (w : World) (office_id : Z)
    (params : gmap string pval) :
  access_token inp ≠ "" →
  py_int unicode (entity_id_input inp) = Some office_id →
  build_params (access_token inp) (selected_exchange_type inp)
    (selected_programmes inp) (start_date inp) (end_date inp) "month"
    (Some office_id) = Ok params →
  cache_lookup 3600
    (access_token inp, selected_exchange_type inp, selected_programmes inp,
     start_date inp, end_date inp, "month", Some office_id) now w = None →
  status_code (http_get now params) = 200 →
  match body (http_get now params) with
  | JsonBody j =>
      py_in "analytics" j = Ok false →
      script to_datetime http_get unicode inp now w =
        (Stopped,
         shown (JsonView j)
           (shown (Error "API response does not contain 'analytics'. Full response:")
              (sent params
                 (shown (Title page_title) w))))
  | TextBody _ =>
      script to_datetime http_get unicode inp now w =
        (Raised JSONDecodeError,
         sent params (shown (Title page_title) w))
  end.
Proof.
  intros Htoken Hint Hparams Hcache Hstatus.
  assert (Hmiss : cache_lookup 3600
            (access_token inp, selected_exchange_type inp,
             selected_programmes inp, start_date inp, end_date inp, "month",
             Some office_id) now
            (shown (Title page_title) w) = None)
    by exact Hcache.
  destruct (body (http_get now params)) as [j|s] eqn:Hbody;
    [intros Hin|];
    rewrite (script_fetch_then_render _ _ _ _ _ _ _ Htoken Hint);
    unfold mbind at 1, M_bind at 1;
    unfold fetch_exchange_data, cache_data; rewrite Hmiss;
    unfold fetch_body; rewrite Hparams;
    unfold mbind, M_bind, lift, requests_get, st_show, st_stop; simpl;
    rewrite Hstatus; simpl; unfold response_json; rewrite Hbody.
  - by rewrite Hin.
  - done.
Qed.

Lemma missing_analytics_aborts_witness :
  ∃ w', script to_datetime_iso
          (server {| status_code := 200;
                     body := JsonBody (JObj {[ "error" := JStr "bad token" ]}) |})
          unicode_14 (sample_inputs "1609" id) 0 empty_world = (Stopped, w') ∧
    cache w' = [] ∧
    ui w' = [ Title page_title;
              Error "API response does not contain 'analytics'. Full response:";
              JsonView (JObj {[ "error" := JStr "bad token" ]}) ].
Proof.
  eexists. split.
  - exact (missing_analytics_aborts to_datetime_iso
             (server {| status_code := 200;
                        body := JsonBody (JObj {[ "error" := JStr "bad token" ]}) |})
             unicode_14 (sample_inputs "1609" id) 0 empty_world 1609
             sample_params
             ltac:(discriminate) eq_refl eq_refl eq_refl eq_refl eq_refl).
  - split; reflexivity.
Defined.

(** X5: when the fetch goes to the network and the answer has status 200
    and a JSON object with an "analytics" entry, the fetch returns exactly
    what the normalizer makes of that entry. A table is stored in the cache
    under the fetch's arguments with the time of the fetch; an exception of
    the normalizer leaves the cache as it was. Either way one request was
    sent and nothing was shown. *)
Theorem successful_fetch_cached (to_datetime : json → res Timestamp)
    (http_get : Z → gmap string pval → Response) (now : Z)
    (token exchange_type : string) (programmes : list string)
    (start_date end_date : Date) (interval : string) (office_id : option Z)
    (w : World) (params : gmap string pval) (o : gmap string json)
    (data : json) :
  let key := (token, exchange_type, programmes, start_date, end_date,
              interval, office_id) in
  cache_lookup 3600 key now w = None →
  build_params token exchange_type programmes start_date end_date
    interval office_id = Ok params →
  status_code (http_get now params) = 200 →
  body (http_get now params) = JsonBody (JObj o) →
  o !! "analytics" = Some data →
  fetch_exchange_data to_datetime http_get now token exchange_type
    programmes start_date end_date interval office_id w =
  match normalize to_datetime data with
  | Ok df => (Done df, cache_store key now df (sent params w))
  | Raise e => (Raised e, sent params w)
  end.
Proof.
  intros key Hcache Hparams Hstatus Hbody Hdata.
  unfold fetch_exchange_data, cache_data. fold key. rewrite Hcache.
  unfold fetch_body. rewrite Hparams.
  unfold mbind, M_bind, lift, requests_get, st_show, st_stop. simpl.
  rewrite Hstatus. simpl. unfold response_json. rewrite Hbody. simpl.
  rewrite Hdata. simpl.
  by destruct (normalize to_datetime data).
Qed.

Lemma successful_fetch_cached_witness :
  ∃ w',
    fetch_exchange_data to_datetime_iso (server analytics_response) 7
      "token" "Outgoing"
      ["Global Volunteer"; "Global Talent"; "Global Teacher"]
      {| dyear := 2024; dmonth := 1; dday := 1 |}
      {| dyear := 2024; dmonth := 12; dday := 31 |} "month" (Some 1609)
      empty_world
    = (Done [ {| date := midnight_utc 2024 1 1; status := "Applied";
                 count := JInt 10 |} ], w') ∧
    requests w' = [sample_params] ∧ ui w' = [].
Proof.
  eexists. split.
  - exact (successful_fetch_cached to_datetime_iso
             (server analytics_response) 7 "token" "Outgoing"
             ["Global Volunteer"; "Global Talent"; "Global Teacher"]
             {| dyear := 2024; dmonth := 1; dday := 1 |}
             {| dyear := 2024; dmonth := 12; dday := 31 |} "month" (Some 1609)
             empty_world sample_params
             {[ "analytics" := JObj applied_only ]} (JObj applied_only)
             eq_refl eq_refl eq_refl eq_refl eq_refl).
  - split; reflexivity.
Defined.

(** ** The cache, continued *)

Lemma fetch_body_requests to_datetime http_get now token exchange_type
    programmes start_date end_date interval office_id w o w' :
  fetch_body to_datetime http_get now token exchange_type programmes
    start_date end_date interval office_id w = (o, w') →
  match build_params token exchange_type programmes start_date end_date
          interval office_id with
  | Ok params => requests w' = requests w ++ [params]
  | Raise _ => requests w' = requests w
  end.
Proof.
  unfold fetch_body, mbind, M_bind, lift, requests_get, st_show, st_stop.
  destruct (build_params _ _ _ _ _ _ _) as [params|]; [|by intros [= _ <-]].
  destruct (status_code (http_get now params) =? 200); simpl.
  - destruct (response_json _) as [json_data|]; [|by intros [= _ <-]].
    destruct (py_in "analytics" json_data) as [[]|]; simpl;
      [|by intros [= _ <-]..].
    destruct (py_getitem json_data "analytics") as [data|];
      [|by intros [= _ <-]].
    destruct (normalize to_datetime data); by intros [= _ <-].
  - destruct (response_json _); by intros [= _ <-].
Qed.

(** X9: an entry that is 3600 seconds old or older is not used: the fetch
    sends a request again. If it returns a table, that table replaces the
    old one under the same arguments, stored with the new time; if it
    stops or raises, the cache stays as it was. *)
Theorem expired_entry_refetched (to_datetime : json → res Timestamp)
    (http_get : Z → gmap string pval → Response) (now stored : Z)
    (token exchange_type : string) (programmes : list string)
    (start_date end_date : Date) (interval : string) (office_id : option Z)
    (w : World) (old : DataFrame) (params : gmap string pval) :
  let key := (token, exchange_type, programmes, start_date, end_date,
              interval, office_id) in
  cache_find key (cache w) = Some (stored, old) →
  stored + 3600 ≤ now →
  build_params token exchange_type programmes start_date end_date
    interval office_id = Ok params →
  ∃ o w',
    fetch_exchange_data to_datetime http_get now token exchange_type
      programmes start_date end_date interval office_id w = (o, w') ∧
    requests w' = requests w ++ [params] ∧
    (∀ df, o = Done df → cache_find key (cache w') = Some (now, df)) ∧
    ((∀ df, o ≠ Done df) → cache w' = cache w).
Proof.
  intros key Hfind Hold Hparams.
  unfold fetch_exchange_data, cache_data, cache_lookup. fold key.
  rewrite Hfind, (proj2 (Z.ltb_ge _ _)) by lia.
  destruct (fetch_body to_datetime http_get now token exchange_type
              programmes start_date end_date interval office_id w)
    as [o w0] eqn:Hbody.
  pose proof (fetch_body_requests _ _ _ _ _ _ _ _ _ _ _ _ _ Hbody) as Hreq.
  rewrite Hparams in Hreq.
  apply fetch_body_cache in Hbody.
  destruct o as [df| |]; eexists _, _; (split; [reflexivity|]); simpl.
  - split_and!; [done| |by intros H; destruct (H df)].
    intros df' [= <-]. by rewrite decide_True.
  - split_and!; done.
  - split_and!; done.
Qed.

Lemma expired_entry_refetched_witness :
  ∃ w',
    fetch_exchange_data to_datetime_iso (server analytics_response) 3600
      "token" "Outgoing"
      ["Global Volunteer"; "Global Talent"; "Global Teacher"]
      {| dyear := 2024; dmonth := 1; dday := 1 |}
      {| dyear := 2024; dmonth := 12; dday := 31 |} "month" (Some 1609)
      (cache_store
         ("token", "Outgoing",
          ["Global Volunteer"; "Global Talent"; "Global Teacher"],
          {| dyear := 2024; dmonth := 1; dday := 1 |},
          {| dyear := 2024; dmonth := 12; dday := 31 |}, "month", Some 1609)
         0 [] empty_world)
    = (Done [ {| date := midnight_utc 2024 1 1; status := "Applied";
                 count := JInt 10 |} ], w') ∧
    requests w' = [sample_params].
Proof.
  destruct (expired_entry_refetched to_datetime_iso
              (server analytics_response) 3600 0 "token" "Outgoing"
              ["Global Volunteer"; "Global Talent"; "Global Teacher"]
              {| dyear := 2024; dmonth := 1; dday := 1 |}
              {| dyear := 2024; dmonth := 12; dday := 31 |} "month"
              (Some 1609)
              (cache_store
                 ("token", "Outgoing",
                  ["Global Volunteer"; "Global Talent"; "Global Teacher"],
                  {| dyear := 2024; dmonth := 1; dday := 1 |},
                  {| dyear := 2024; dmonth := 12; dday := 31 |}, "month",
                  Some 1609) 0 [] empty_world)
              [] sample_params)
    as (o & w' & Hfetch & Hreq & _ & _); [reflexivity|lia|reflexivity|].
  exists w'. split; [|exact Hreq].
  rewrite Hfetch. f_equal.
  assert (Ho : fst (fetch_exchange_data to_datetime_iso
                      (server analytics_response) 3600 "token" "Outgoing"
                      ["Global Volunteer"; "Global Talent"; "Global Teacher"]
                      {| dyear := 2024; dmonth := 1; dday := 1 |}
                      {| dyear := 2024; dmonth := 12; dday := 31 |} "month"
                      (Some 1609)
                      (cache_store
                         ("token", "Outgoing",
                          ["Global Volunteer"; "Global Talent"; "Global Teacher"],
                          {| dyear := 2024; dmonth := 1; dday := 1 |},
                          {| dyear := 2024; dmonth := 12; dday := 31 |},
                          "month", Some 1609) 0 [] empty_world))
               = Done [ {| date := midnight_utc 2024 1 1;
                           status := "Applied"; count := JInt 10 |} ])
    by reflexivity.
  by rewrite Hfetch in Ho.
Defined.

(** X10: cached tables are kept apart by the fetch's arguments. A fetch
    changes nothing for any other argument tuple (another token, entity,
    programme list, date, ...): whatever that tuple would have found in
    the cache before, at any time, it finds afterwards. *)
Theorem other_arguments_not_reused (to_datetime : json → res Timestamp)
    (http_get : Z → gmap string pval → Response) (now : Z)
    (token exchange_type : string) (programmes : list string)
    (start_date end_date : Date) (interval : string) (office_id : option Z)
    (w w' : World) (o : outcome DataFrame) (key' : CacheKey) :
  key' ≠ (token, exchange_type, programmes, start_date, end_date,
          interval, office_id) →
  fetch_exchange_data to_datetime http_get now token exchange_type
    programmes start_date end_date interval office_id w = (o, w') →
  ∀ t, cache_lookup 3600 key' t w' = cache_lookup 3600 key' t w.
Proof.
  intros Hkey. unfold fetch_exchange_data, cache_data.
  destruct (cache_lookup _ _ _ w); [by intros [= _ <-]|].
  destruct (fetch_body _ _ _ _ _ _ _ _ _ _ w) as [o0 w0] eqn:Hbody.
  apply fetch_body_cache in Hbody.
  destruct o0 as [df| |]; intros [= _ <-] t; unfold cache_lookup; simpl;
    rewrite ?Hbody; [|done..].
  by rewrite decide_False.
Qed.

Lemma other_arguments_not_reused_witness :
  ∃ o w',
    fetch_exchange_data to_datetime_iso (server analytics_response) 0
      "token" "Outgoing" ["Global Talent"]
      {| dyear := 2024; dmonth := 1; dday := 1 |}
      {| dyear := 2024; dmonth := 12; dday := 31 |} "month" (Some 1609)
      empty_world = (o, w') ∧
    cache_lookup 3600
      ("other token", "Outgoing", ["Global Talent"],
       {| dyear := 2024; dmonth := 1; dday := 1 |},
       {| dyear := 2024; dmonth := 12; dday := 31 |}, "month", Some 1609)
      1 w' = None.
Proof.
  destruct (fetch_exchange_data to_datetime_iso (server analytics_response) 0
      "token" "Outgoing" ["Global Talent"]
      {| dyear := 2024; dmonth := 1; dday := 1 |}
      {| dyear := 2024; dmonth := 12; dday := 31 |} "month" (Some 1609)
      empty_world) as [o w'] eqn:Hfetch.
  exists o, w'. split; [reflexivity|].
  rewrite (other_arguments_not_reused to_datetime_iso
             (server analytics_response) 0 "token" "Outgoing"
             ["Global Talent"]
             {| dyear := 2024; dmonth := 1; dday := 1 |}
             {| dyear := 2024; dmonth := 12; dday := 31 |} "month"
             (Some 1609) empty_world w' o
             ("other token", "Outgoing", ["Global Talent"],
              {| dyear := 2024; dmonth := 1; dday := 1 |},
              {| dyear := 2024; dmonth := 12; dday := 31 |}, "month",
              Some 1609)).
  - reflexivity.
  - discriminate.
  - exact Hfetch.
Defined.

(** ** The render, continued *)

(** X1: without a token the render stops on the token prompt, before the
    entity id is looked at and before any request: nothing is sent and the
    cache is untouched, whatever the other inputs are. *)
Theorem missing_token_halts (to_datetime : json → res Timestamp)
    (http_get : Z → gmap string pval → Response) (unicode : UnicodeData)
    (inp : Inputs) (now : Z) (w : World) :
  access_token inp = "" →
  script to_datetime http_get unicode inp now w =
    (Stopped,
     shown (Info token_prompt)
       (shown (Title page_title) w)).
Proof.
  intros Htoken. unfold script, mbind, M_bind, st_show, st_stop.
  by rewrite Htoken.
Qed.

Lemma missing_token_halts_witness :
  ∃ w',
    script to_datetime_iso (server analytics_response) unicode_14
      {| access_token := ""; selected_exchange_type := "Outgoing";
         selected_programmes := []; entity_id_input := "1609";
         start_date := {| dyear := 2024; dmonth := 1; dday := 1 |};
         end_date := {| dyear := 2024; dmonth := 12; dday := 31 |};
         line_shape := "spline"; select_statuses := id |} 0 empty_world
    = (Stopped, w') ∧
    requests w' = [] ∧ length (ui w') = 2%nat.
Proof.
  eexists. split.
  - by apply missing_token_halts.
  - by split.
Defined.

Create HintDb offline discriminated.

Lemma offline_ret {A} (a : A) : offline (mret a).
Proof. by intros w o w' [= _ <-]. Qed.

Lemma offline_show e : offline (st_show e).
Proof. by intros w o w' [= _ <-]. Qed.

Lemma offline_stop {A} : offline (@st_stop A).
Proof. by intros w o w' [= _ <-]. Qed.

Lemma offline_lift {A} (r : res A) : offline (lift r).
Proof. intros w o w'. unfold lift. by destruct r; intros [= _ <-]. Qed.

Lemma offline_bind {A B} (m : M A) (f : A → M B) :
  offline m → (∀ a, offline (f a)) → offline (m ≫= f).
Proof.
  intros Hm Hf w o w'. unfold mbind, M_bind.
  destruct (m w) as [[a| |] w1] eqn:Hmw.
  - intros Hfa. destruct (Hm _ _ _ Hmw) as [<- <-]. by eapply Hf.
  - intros [= _ <-]. by eapply Hm.
  - intros [= _ <-]. by eapply Hm.
Qed.

Lemma offline_if {A} (b : bool) (m1 m2 : M A) :
  offline m1 → offline m2 → offline (if b then m1 else m2).
Proof. by destruct b. Qed.

#[local] Hint Resolve offline_ret offline_show offline_stop offline_lift
  offline_if : offline.
#[local] Hint Extern 2 (offline (_ ≫= _)) =>
  apply offline_bind; [|intros ?] : offline.

(** Once the table is fetched, rendering it sends nothing and leaves the
    cache alone. *)
Lemma offline_render_table inp df : offline (render_table inp df).
Proof. unfold render_table. auto 40 with offline. Qed.

(** X11: a render sends at most one request. It sends one only when the
    token is present, the entity id parses and the parameters can be built,
    and the request then carries exactly those parameters; renders that
    answer from the cache, or stop at the input checks, send none. *)
Theorem render_sends_at_most_one_request (to_datetime : json → res Timestamp)
    (http_get : Z → gmap string pval → Response) (unicode : UnicodeData)
    (inp : Inputs) (now : Z) (w w' : World) (o : outcome Aggregate) :
  script to_datetime http_get unicode inp now w = (o, w') →
  requests w' = requests w ∨
  ∃ office_id params,
    access_token inp ≠ "" ∧
    py_int unicode (entity_id_input inp) = Some office_id ∧
    build_params (access_token inp) (selected_exchange_type inp)
      (selected_programmes inp) (start_date inp) (end_date inp) "month"
      (Some office_id) = Ok params ∧
    cache_lookup 3600
      (access_token inp, selected_exchange_type inp, selected_programmes inp,
       start_date inp, end_date inp, "month", Some office_id) now w = None ∧
    requests w' = requests w ++ [params].
Proof.
  destruct (decide (access_token inp = "")) as [Htoken|Htoken].
  { unfold script, mbind, M_bind, st_show, st_stop. rewrite Htoken. simpl.
    intros [= _ <-]. by left. }
  destruct (py_int unicode (entity_id_input inp)) as [office_id|] eqn:Hint; cycle 1.
  { unfold script, mbind, M_bind, st_show, st_stop.
    rewrite (token_present _ Htoken), Hint. intros [= _ <-]. by left. }
  rewrite (script_fetch_then_render _ _ _ _ _ _ _ Htoken Hint).
  unfold mbind at 1, M_bind at 1.
  destruct (fetch_exchange_data _ _ _ _ _ _ _ _ _ _ _) as [o1 w1] eqn:Hfetch.
  intros Hrun.
  assert (Hrest : requests w' = requests w1).
  { destruct o1 as [df| |]; [|by injection Hrun as _ <-..].
    by apply offline_render_table in Hrun as [? _]. }
  rewrite Hrest. clear Hrest Hrun.
  revert Hfetch. unfold fetch_exchange_data, cache_data.
  destruct (cache_lookup _ _ _ (shown _ w)) as [df|] eqn:Hcache.
  { intros [= _ <-]. by left. }
  destruct (fetch_body _ _ _ _ _ _ _ _ _ _ _) as [o0 w0] eqn:Hbody.
  apply fetch_body_requests in Hbody.
  assert (Hw1 : ((o0, w0) = (o1, w1) ∨
                ∃ df, cache_store
                        (access_token inp, selected_exchange_type inp,
                         selected_programmes inp, start_date inp,
                         end_date inp, "month", Some office_id)
                        now df w0 = w1) → requests w1 = requests w0).
  { intros [ [= _ <-] | [df <-] ]; done. }
  intros Hfetch. rewrite Hw1; cycle 1.
  { destruct o0; [right; eexists|left..]; by injection Hfetch. }
  destruct (build_params _ _ _ _ _ _ _) as [params|] eqn:Hparams;
    [|by left].
  right. exists office_id, params. by split_and!.
Qed.

Lemma render_sends_at_most_one_request_witness :
  ∃ o w',
    script to_datetime_iso (server analytics_response) unicode_14
      (sample_inputs "1609" id) 0 empty_world = (o, w') ∧
    requests w' = [sample_params].
Proof.
  destruct (script to_datetime_iso (server analytics_response) unicode_14
              (sample_inputs "1609" id) 0 empty_world) as [o w'] eqn:Hrun.
  exists o, w'. split; [reflexivity|].
  destruct (render_sends_at_most_one_request _ _ _ _ _ _ _ _ Hrun)
    as [Hnone | (office_id & params & _ & Hint & Hparams & _ & Hone)].
  - assert (Hlen : length (requests (script to_datetime_iso
                     (server analytics_response) unicode_14
                     (sample_inputs "1609" id) 0 empty_world).2) = 1%nat)
      by (vm_compute; reflexivity).
    rewrite Hrun in Hlen. simpl in Hlen. rewrite Hnone in Hlen.
    discriminate Hlen.
  - vm_compute in Hint. injection Hint as <-. rewrite Hone.
    assert (Hsample : build_params "token" "Outgoing"
              ["Global Volunteer"; "Global Talent"; "Global Teacher"]
              {| dyear := 2024; dmonth := 1; dday := 1 |}
              {| dyear := 2024; dmonth := 12; dday := 31 |} "month"
              (Some 1609) = Ok sample_params) by reflexivity.
    change (build_params _ _ _ _ _ _ _) with
      (build_params "token" "Outgoing"
              ["Global Volunteer"; "Global Talent"; "Global Teacher"]
              {| dyear := 2024; dmonth := 1; dday := 1 |}
              {| dyear := 2024; dmonth := 12; dday := 31 |} "month"
              (Some 1609)) in Hparams.
    rewrite Hsample in Hparams. by injection Hparams as <-.
Defined.

(** ** The status selection *)

Lemma unique_from_elem seen l x :
  x ∈ unique_from seen l ↔ x ∈ l ∧ x ∉ seen.
Proof.
  revert seen. induction l as [|y l IH]; intros seen; simpl.
  - rewrite elem_of_nil. naive_solver.
  - case_bool_decide as Hy.
    + rewrite IH, elem_of_cons. naive_solver.
    + rewrite !elem_of_cons, IH, elem_of_cons.
      destruct (decide (x = y)); naive_solver.
Qed.

Lemma unique_from_NoDup seen l : NoDup (unique_from seen l).
Proof.
  revert seen. induction l as [|y l IH]; intros seen; simpl.
  - constructor.
  - case_bool_decide; [apply IH|].
    constructor; [|apply IH].
    rewrite unique_from_elem, elem_of_cons. naive_solver.
Qed.

Lemma unique_from_seen_equiv seen seen' l :
  (∀ x, x ∈ seen ↔ x ∈ seen') →
  unique_from seen l = unique_from seen' l.
Proof.
  revert seen seen'. induction l as [|y l IH]; intros seen seen' Heq; simpl.
  - done.
  - rewrite (bool_decide_ext _ _ (Heq y)).
    case_bool_decide; [by apply IH|].
    f_equal. apply IH. intros x. rewrite !elem_of_cons, Heq. done.
Qed.

Lemma unique_from_cons_seen x seen l :
  unique_from (x :: seen) l = unique_from seen (filter (λ y, y ≠ x) l).
Proof.
  revert seen. induction l as [|y l IH]; intros seen; simpl; [done|].
  destruct (decide (y = x)) as [->|Hyx].
  - rewrite bool_decide_eq_true_2 by left.
    rewrite filter_cons_False by naive_solver. apply IH.
  - rewrite filter_cons_True by done. simpl.
    rewrite (bool_decide_ext (y ∈ x :: seen) (y ∈ seen))
      by (rewrite elem_of_cons; naive_solver).
    case_bool_decide; [apply IH|].
    f_equal. rewrite <-IH. apply unique_from_seen_equiv.
    intros z. rewrite !elem_of_cons. naive_solver.
Qed.

(** X12: the list of statuses offered for selection holds each status of
    the table exactly once, in order of first appearance: the first
    element is kept and the later copies of it are dropped, and so on down
    the list. A list without repetitions is returned as it is. *)
Theorem unique_first_occurrences (l : list string) :
  NoDup (unique l) ∧
  (∀ x, x ∈ unique l ↔ x ∈ l) ∧
  (∀ x l', unique (x :: l') = x :: unique (filter (λ y, y ≠ x) l')) ∧
  (NoDup l → unique l = l).
Proof.
  split_and!.
  - apply unique_from_NoDup.
  - intros x. unfold unique. rewrite unique_from_elem, elem_of_nil.
    naive_solver.
  - intros x l'. unfold unique. simpl. by rewrite unique_from_cons_seen.
  - unfold unique. induction 1 as [|x l' Hx _ IH]; [done|]. simpl.
    rewrite unique_from_cons_seen. f_equal.
    rewrite <-IH at 2. f_equal.
    clear IH. induction l' as [|y l' IH]; [done|].
    rewrite not_elem_of_cons in Hx. destruct Hx as [Hxy Hx].
    rewrite filter_cons_True by done. f_equal. by apply IH.
Qed.

Lemma unique_first_occurrences_witness :
  unique ["Applied"; "Realized"; "Accepted"]
  = ["Applied"; "Realized"; "Accepted"].
Proof.
  destruct (unique_first_occurrences ["Applied"; "Realized"; "Accepted"])
    as (_ & _ & _ & Hnodup).
  apply Hnodup. by apply (bool_decide_unpack _).
Defined.

Lemma filter_all_elements {A} (P : A → Prop) `{∀ x, Decision (P x)}
    (l : list A) :
  Forall P l → filter P l = l.
Proof.
  induction 1 as [|x l' Hx _ IH]; [done|].
  by rewrite filter_cons_True, IH.
Qed.

(** X13: the table behind the chart and the pivot holds, in their
    original order, exactly the fetched rows whose status is selected and is
    not "Sign Up". With the selector left at its default, all statuses of
    the table, nothing is removed from a table the normalizer returned;
    with nothing selected, nothing is left. *)
Theorem status_filter_keeps_selected (selected : list string)
    (df : DataFrame) :
  (∀ r, r ∈ filter_statuses selected df ↔
        r ∈ df ∧ status r ∈ selected ∧ status r ≠ "Sign Up") ∧
  filter_statuses selected df `sublist_of` df ∧
  filter_statuses [] df = [] ∧
  (∀ to_datetime data,
     normalize to_datetime data = Ok df →
     filter_statuses (unique (status <$> df)) df = df).
Proof.
  unfold filter_statuses. split_and!.
  - intros r. rewrite !list_elem_of_filter. naive_solver.
  - etrans; apply sublist_filter.
  - induction df as [|r df IH]; [done|].
    rewrite (filter_cons_False _ r) by (by intros ?%elem_of_nil). apply IH.
  - intros to_datetime data Hdf.
    rewrite (filter_all_elements (λ r, status r ∈ unique (status <$> df))).
    + eapply filter_sign_up_labelled, normalize_rows_labelled, Hdf.
    + apply Forall_forall. intros r Hr.
      apply unique_from_elem. split; [|by intros ?%elem_of_nil].
      apply list_elem_of_fmap. by exists r.
Qed.

Lemma status_filter_keeps_selected_witness :
  ∃ df, normalize to_datetime_iso (JObj sparse_payload) = Ok df ∧
    filter_statuses (unique (status <$> df)) df = df ∧
    length (filter_statuses ["Realized"] df) = 1%nat.
Proof.
  destruct (normalize to_datetime_iso (JObj sparse_payload))
    as [df|e] eqn:Hdf; [|by vm_compute in Hdf].
  exists df. split; [done|]. split.
  - destruct (status_filter_keeps_selected (unique (status <$> df)) df)
      as (_ & _ & _ & Hdefault).
    exact (Hdefault _ _ Hdf).
  - vm_compute in Hdf. by injection Hdf as <-.
Defined.

(** ** The aggregator, continued *)

Lemma pivot_Ok_inv (df : DataFrame) (p : PivotTable) :
  pivot df = Ok p →
  NoDup (pivot_key <$> df) ∧
  p = list_to_map ((λ r, (pivot_key r, count r)) <$> df).
Proof.
  unfold pivot. case_bool_decide; [|done]. by intros [= <-].
Qed.

(** A built pivot holds exactly the rows' counts, each under its row's
    date and status. *)
Lemma pivot_lookup (df : DataFrame) (p : PivotTable) k v :
  pivot df = Ok p →
  p !! k = Some v ↔ ∃ r, r ∈ df ∧ pivot_key r = k ∧ count r = v.
Proof.
  intros [Hnodup ->]%pivot_Ok_inv.
  rewrite <-elem_of_list_to_map by (by rewrite <-list_fmap_compose).
  rewrite list_elem_of_fmap. naive_solver.
Qed.

Lemma pivot_index (df : DataFrame) (p : PivotTable) d :
  pivot df = Ok p → d ∈ index p ↔ ∃ r, r ∈ df ∧ date r = d.
Proof.
  intros Hp. unfold index. rewrite elem_of_map. split.
  - intros ([d' c] & -> & [v Hv]%elem_of_dom).
    apply (pivot_lookup _ _ _ _ Hp) in Hv as (r & Hr & [= <- <-] & _).
    by exists r.
  - intros (r & Hr & <-). exists (pivot_key r). split; [done|].
    apply elem_of_dom. exists (count r).
    apply (pivot_lookup _ _ _ _ Hp). by exists r.
Qed.

Lemma pivot_columns (df : DataFrame) (p : PivotTable) c :
  pivot df = Ok p → c ∈ columns p ↔ ∃ r, r ∈ df ∧ status r = c.
Proof.
  intros Hp. unfold columns. rewrite elem_of_map. split.
  - intros ([d c'] & -> & [v Hv]%elem_of_dom).
    apply (pivot_lookup _ _ _ _ Hp) in Hv as (r & Hr & [= <- <-] & _).
    by exists r.
  - intros (r & Hr & <-). exists (pivot_key r). split; [done|].
    apply elem_of_dom. exists (count r).
    apply (pivot_lookup _ _ _ _ Hp). by exists r.
Qed.

Lemma pivot_int_cells (df : DataFrame) (p : PivotTable) :
  pivot df = Ok p → int_counts df → int_cells p.
Proof.
  intros Hp Hint k v Hv.
  apply (pivot_lookup _ _ _ _ Hp) in Hv as (r & Hr & _ & <-).
  by apply (proj1 (Forall_forall _ _) Hint).
Qed.

Lemma sum_Permutation (l1 l2 : list Z) :
  l1 ≡ₚ l2 → foldr Z.add 0 l1 = foldr Z.add 0 l2.
Proof. induction 1; simpl; lia. Qed.

Lemma sum_app (l1 l2 : list Z) :
  foldr Z.add 0 (l1 ++ l2) = foldr Z.add 0 l1 + foldr Z.add 0 l2.
Proof. induction l1; simpl; lia. Qed.

Lemma sum_zeros {A} (f : A → Z) (l : list A) :
  (∀ x, x ∈ l → f x = 0) → foldr Z.add 0 (f <$> l) = 0.
Proof.
  induction l as [|x l IH]; intros Hf; csimpl; [done|].
  rewrite Hf, IH; [done| |left]. intros y Hy. apply Hf. by right.
Qed.

Lemma series_sum_values (l : list json) :
  Forall (λ v, ∃ n, v = JInt n) l →
  series_sum l = Ok (foldr Z.add 0 (count_value <$> l)).
Proof.
  induction 1 as [|v l [n ->] _ IH]; csimpl; [done|]. by rewrite IH.
Qed.

(** The total of a column is the sum of the counts of the rows of that
    status. *)
Lemma column_total_stage_total (df : DataFrame) (p : PivotTable) c :
  pivot df = Ok p → int_counts df →
  column_total p c = Ok (stage_total c df).
Proof.
  intros Hp Hint. unfold column_total, get_column, stage_total.
  set (rows := filter (λ r, status r = c) df).
  assert (Hrows : ∀ r, r ∈ rows ↔ r ∈ df ∧ status r = c).
  { intros r. unfold rows. by rewrite list_elem_of_filter, (comm and). }
  assert (Hcell : ∀ r, r ∈ rows → cell p (date r) c = count r).
  { intros r [Hr <-]%Hrows. unfold cell.
    assert (p !! (date r, status r) = Some (count r)) as ->.
    { apply (pivot_lookup df p _ _ Hp). by exists r. }
    by destruct (proj1 (Forall_forall _ _) Hint r Hr) as [n ->]. }
  case_bool_decide as Hcol.
  - set (f := λ d, count_value (cell p d c)).
    rewrite series_sum_values; cycle 1.
    { apply Forall_fmap, Forall_forall. intros d _. unfold cell. simpl.
      destruct (p !! (d, c)) as [v|] eqn:Hv; [|by exists 0].
      destruct (pivot_int_cells _ _ Hp Hint _ _ Hv) as [n ->]. by exists n. }
    f_equal. rewrite <-(list_fmap_compose (λ d, cell p d c) count_value).
    change (count_value ∘ (λ d, cell p d c)) with f.
    assert (Hnodup : NoDup (date <$> rows)).
    { apply (NoDup_fmap_1 (λ d, (d, c))). rewrite <-list_fmap_compose.
      destruct (pivot_Ok_inv _ _ Hp) as [Hkeys _].
      eapply sublist_NoDup; [exact Hkeys|].
      erewrite (list_fmap_ext _ pivot_key rows).
      - apply fmap_sublist, sublist_filter.
      - intros i r [Hr <-]%list_elem_of_lookup_2%Hrows. done. }
    destruct (submseteq_Permutation (date <$> rows) (elements (index p)))
      as [others Hperm].
    { apply NoDup_submseteq; [done|].
      intros d (r & -> & [Hr _]%Hrows)%list_elem_of_fmap.
      apply elem_of_elements, (pivot_index _ _ _ Hp). by exists r. }
    rewrite (sum_Permutation _ _ (fmap_Permutation f _ _ Hperm)).
    rewrite fmap_app, sum_app. rewrite (sum_zeros f others).
    + rewrite Z.add_0_r, <-list_fmap_compose. f_equal.
      apply list_fmap_ext. intros i r Hr%list_elem_of_lookup_2.
      simpl. unfold f. by rewrite Hcell.
    + intros d Hd. unfold f, cell.
      destruct (p !! (d, c)) as [v|] eqn:Hv; [|done]. exfalso.
      apply (pivot_lookup _ _ _ _ Hp) in Hv as (r & Hr & [= <- <-] & _).
      pose proof (NoDup_elements (index p)) as Hall.
      rewrite Hperm in Hall. apply NoDup_app in Hall as (_ & Hdisj & _).
      apply (Hdisj (date r)); [|done].
      apply list_elem_of_fmap. exists r. split; [done|]. by apply Hrows.
  - assert (rows = []) as ->.
    { apply elem_of_nil_inv. intros r [Hr Hc]%Hrows. apply Hcol.
      apply (pivot_columns _ _ _ Hp). by exists r. }
    done.
Qed.

(** The sum of the counts of a stage is within the sum of the magnitudes
    of all counts. *)
Lemma stage_total_bound c (df : DataFrame) :
  Z.abs (stage_total c df)
  ≤ foldr Z.add 0 (Z.abs ∘ count_value ∘ count <$> df).
Proof.
  unfold stage_total. induction df as [|r df IH]; [done|].
  rewrite filter_cons. csimpl.
  destruct (decide (status r = c)); csimpl; lia.
Qed.

Lemma exact_counts_stage_total c (df : DataFrame) :
  exact_counts df → Z.abs (stage_total c df) ≤ 2 ^ 53.
Proof. intros [_ Hsum]. pose proof (stage_total_bound c df). lia. Qed.

(** X14: in a pivot built from a table of integer counts whose magnitudes
    add up to at most 2^53, where int64 and float64 sums are the same
    numbers, the index holds exactly the dates of the table and the columns
    exactly its statuses (stages that share a date stay separate columns),
    and the total of every column is the sum of the counts of the rows of
    that status, itself within 2^53; a status with no row totals 0. *)
Theorem column_total_is_stage_sum (df : DataFrame) (p : PivotTable) :
  pivot df = Ok p →
  exact_counts df →
  (∀ d, d ∈ index p ↔ ∃ r, r ∈ df ∧ date r = d) ∧
  (∀ c, c ∈ columns p ↔ ∃ r, r ∈ df ∧ status r = c) ∧
  (∀ c, column_total p c = Ok (stage_total c df) ∧
        Z.abs (stage_total c df) ≤ 2 ^ 53) ∧
  (∀ c, (∀ r, r ∈ df → status r ≠ c) → column_total p c = Ok 0).
Proof.
  intros Hp Hexact. pose proof (proj1 Hexact) as Hint. split_and!.
  - intros d. by apply pivot_index.
  - intros c. by apply pivot_columns.
  - intros c. split; [by apply column_total_stage_total|].
    by apply exact_counts_stage_total.
  - intros c Hnone. rewrite (column_total_stage_total df) by done.
    unfold stage_total.
    replace (filter (λ r, status r = c) df) with (@nil FunnelRow); [done|].
    symmetry. apply elem_of_nil_inv.
    intros r [Hc Hr]%list_elem_of_filter. by apply (Hnone r).
Qed.

Lemma column_total_is_stage_sum_witness :
  column_total small_pivot "Applied" = Ok 100 ∧
  column_total small_pivot "Realized" = Ok 0.
Proof.
  destruct (column_total_is_stage_sum small_table small_pivot)
    as (_ & _ & Htotal & Hnone).
  - reflexivity.
  - split; [repeat constructor; by eexists|by vm_compute].
  - split; [apply Htotal|]. apply Hnone.
    intros r Hr. unfold small_table in Hr.
    rewrite !elem_of_cons, elem_of_nil in Hr. by destruct_or!; subst.
Defined.

(** Rounding to binary64: an exact quotient rounds to itself, and so does
    every integer of magnitude at most 2^53. *)
Lemma round_half_even_exact q d : 0 < d → round_half_even (q * d) d = q.
Proof.
  intros Hd. unfold round_half_even.
  rewrite Z.mod_mul, Z.div_mul by lia.
  by destruct (Z.compare_spec (2 * 0) d); try lia.
Qed.

Lemma Qred_inject_Z a : Qred (inject_Z a) = inject_Z a.
Proof.
  unfold Qred, inject_Z.
  pose proof (Z.ggcd_gcd a 1) as Hg.
  pose proof (Z.ggcd_correct_divisors a 1) as Hd.
  destruct (Z.ggcd a 1) as [g [aa bb]]. simpl in Hg, Hd.
  rewrite Z.gcd_1_r in Hg. subst g. destruct Hd as [-> Hbb].
  replace bb with 1 by lia. f_equal. lia.
Qed.

Lemma binary64_inject_Z a :
  Z.abs a ≤ 2 ^ 53 → binary64 (inject_Z a) = inject_Z a.
Proof.
  intros Ha. unfold binary64. simpl Qnum. simpl Qden.
  destruct (Z.abs a =? 0) eqn:Hzero.
  { apply Z.eqb_eq in Hzero. by replace a with 0 by lia. }
  apply Z.eqb_neq in Hzero.
  change (Z.log2 1) with 0. rewrite Z.sub_0_r.
  set (n := Z.abs a) in *. set (e := Z.log2 n).
  assert (Hn : 0 < n) by lia.
  destruct (Z.log2_spec n Hn) as [Hlo Hhi]. fold e in Hlo, Hhi.
  assert (He : 0 ≤ e) by apply Z.log2_nonneg.
  assert (He53 : e ≤ 53).
  { change 53 with (Z.log2 (2 ^ 53)). by apply Z.log2_le_mono. }
  assert (Hsgn : Z.sgn a * n = a) by (unfold n; lia).
  set (s := Z.sgn a) in *. clearbody s n.
  assert (Hfirst : (let '(n0, d0) := scale2 n 1 (- e) in
                    if d0 <=? n0 then e else e - 1) = e).
  { unfold scale2. destruct (0 <=? - e) eqn:Hk.
    - apply Z.leb_le in Hk. replace e with 0 in * by lia.
      change (2 ^ (- 0)) with 1.
      by rewrite (proj2 (Z.leb_le 1 (n * 1))) by lia.
    - rewrite Z.opp_involutive, Z.mul_1_l.
      by rewrite (proj2 (Z.leb_le _ _) Hlo). }
  destruct (scale2 n 1 (- e)) as [n0 d0]. rewrite Hfirst. clear Hfirst.
  rewrite <-(Qred_inject_Z a). unfold scale2.
  destruct (0 <=? 52 - e) eqn:Hk.
  - apply Z.leb_le in Hk.
    assert (Hr : round_half_even (n * 2 ^ (52 - e)) 1 = n * 2 ^ (52 - e)).
    { rewrite <-(Z.mul_1_r (n * 2 ^ (52 - e))) at 1.
      by apply round_half_even_exact. }
    rewrite Hr.
    destruct (0 <=? e - 52) eqn:Hk2.
    + apply Z.leb_le in Hk2. replace e with 52 by lia.
      apply Qred_complete. unfold Qeq. simpl.
      change (2 ^ (52 - 52)) with 1. rewrite <-Hsgn. ring.
    + apply Qred_complete. unfold Qeq. simpl.
      rewrite Z.mul_1_l, Z2Pos.id by (apply Z.pow_pos_nonneg; lia).
      replace (- (e - 52)) with (52 - e) by lia. rewrite <-Hsgn. ring.
  - apply Z.leb_gt in Hk. assert (e = 53) as Heq by lia. rewrite Heq in *.
    assert (n = 2 ^ 53) as Hn53 by lia. rewrite Hn53 in *.
    simpl. apply Qred_complete. unfold Qeq. simpl.
    rewrite <-Hsgn. vm_compute (round_half_even _ _).
    change (2 ^ (53 - 52)) with 2. change (2 ^ 53) with 9007199254740992.
    ring.
Qed.

(** What the guard makes of a quotient of two integers of magnitude at most
    2^53: the float nearest to their exact ratio for a positive
    denominator, and 0 for any other. *)
Lemma guarded_rate_value num den q :
  Z.abs num ≤ 2 ^ 53 → Z.abs den ≤ 2 ^ 53 →
  guarded_rate num den = Ok q →
  (0 < den → q = binary64 (inject_Z num / inject_Z den)) ∧
  (den ≤ 0 → q = 0%Q).
Proof.
  intros Hnum Hbound. unfold guarded_rate, py_truediv.
  destruct (0 <? den) eqn:Hden.
  - apply Z.ltb_lt in Hden. rewrite (proj2 (Z.eqb_neq den 0)) by lia.
    rewrite !binary64_inject_Z by done.
    intros [= <-]. split; [done|lia].
  - apply Z.ltb_ge in Hden. intros [= <-]. split; [lia|done].
Qed.

(** X15: on a table of integer counts whose magnitudes add up to at most
    2^53, with no two rows for one date and stage, the funnel table has one
    step per adjacent pair of stages, in funnel order; the two counts of a
    step are the sums of the counts of the rows of its two stages, and its
    rate is the float64 nearest to the ratio of the two when the from-count
    is positive and 0 otherwise. The realization rate is, in the same way,
    the float64 nearest to the ratio of the "Realized" sum to the "Applied"
    sum. *)
Theorem funnel_from_table (df : DataFrame) (p : PivotTable) :
  pivot df = Ok p →
  exact_counts df →
  ∃ steps rate,
    funnel_table p = Ok steps ∧
    Forall2 (λ i s,
        funnel_steps !! i = Some (step_from s) ∧
        funnel_steps !! S i = Some (step_to s) ∧
        from_count s = stage_total (step_from s) df ∧
        to_count s = stage_total (step_to s) df ∧
        (0 < from_count s →
         conversion s
         = binary64 (inject_Z (to_count s) / inject_Z (from_count s))) ∧
        (from_count s ≤ 0 → conversion s = 0%Q))
      (seq 0 5) steps ∧
    realization p = Ok rate ∧
    (0 < stage_total "Applied" df →
     rate = binary64 (inject_Z (stage_total "Realized" df)
                      / inject_Z (stage_total "Applied" df))) ∧
    (stage_total "Applied" df ≤ 0 → rate = 0%Q).
Proof.
  intros Hp Hexact. pose proof (proj1 Hexact) as Hint.
  pose proof (λ c, exact_counts_stage_total c df Hexact) as Hbound.
  pose proof (pivot_int_cells _ _ Hp Hint) as Hcells.
  destruct (funnel_loop_Ok p (seq 0 5) [] Hcells) as (steps & Hsteps & Hspec).
  { apply Forall_forall. intros i Hi%elem_of_seq. lia. }
  destruct (guarded_rate_Ok (stage_total "Realized" df)
              (stage_total "Applied" df)) as (rate & Hrate & _).
  exists steps, rate. split_and!.
  - exact Hsteps.
  - eapply Forall2_impl; [exact Hspec|].
    intros i s (Hfrom & Hto & Hfc & Htc & Hconv & _).
    rewrite (column_total_stage_total df) in Hfc, Htc by done.
    injection Hfc as Hfc. injection Htc as Htc.
    destruct (guarded_rate_value (to_count s) (from_count s) (conversion s))
      as [Hpos Hzero];
      [rewrite <-Htc; apply Hbound|rewrite <-Hfc; apply Hbound|exact Hconv|].
    split_and!; [done..| |done].
    intros Hlt. by apply Hpos.
  - unfold realization. rewrite !(column_total_stage_total df) by done.
    exact Hrate.
  - intros Hlt. by apply (guarded_rate_value _ _ _ (Hbound _) (Hbound _) Hrate).
  - intros Hle. by apply (guarded_rate_value _ _ _ (Hbound _) (Hbound _) Hrate).
Qed.

Lemma funnel_from_table_witness :
  ∃ steps s, funnel_table small_pivot = Ok steps ∧
    length steps = 5%nat ∧
    steps !! 0%nat = Some s ∧ from_count s = 100 ∧ to_count s = 0 ∧
    realization small_pivot = Ok 0%Q.
Proof.
  destruct (funnel_from_table small_table small_pivot)
    as (steps & rate & Hsteps & Hspec & Hrate & _ & _).
  - reflexivity.
  - split; [repeat constructor; by eexists|by vm_compute].
  - destruct (Forall2_lookup_l _ _ _ 0%nat 0%nat Hspec eq_refl)
      as (s & Hs & Hfrom & Hto & Hfc & Htc & _).
    injection Hfrom as Hfrom. injection Hto as Hto.
    rewrite <-Hfrom in Hfc. rewrite <-Hto in Htc.
    exists steps, s. split_and!; [exact Hsteps| |exact Hs|exact Hfc|exact Htc|].
    + by rewrite <-(Forall2_length _ _ _ Hspec).
    + reflexivity.
Defined.

(** ** The render of a fetched table *)

(** X16: when the filtered table has two rows for one date and stage, the
    render has already drawn the status selector and the chart of those
    rows when the pivot fails: it ends on [ValueError] after the chart and
    the funnel heading, with no funnel table and no metric. *)
Theorem duplicate_rows_stop_render_after_chart (inp : Inputs)
    (df : DataFrame) (w : World) :
  let statuses := unique (status <$> df) in
  let filtered_df := filter_statuses (select_statuses inp statuses) df in
  ¬ NoDup (pivot_key <$> filtered_df) →
  render_table inp df w =
    (Raised ValueError,
     shown (Header "Funnel Conversion Rates")
       (shown (PlotlyChart filtered_df (line_shape inp))
          (shown (Header "Exchange Trends Over Time")
             (shown (Multiselect "Select statuses to display"
                       statuses statuses)
                (shown (Subheader "Filter Statuses") w))))).
Proof.
  intros statuses filtered_df Hdup.
  assert (Hdf : df ≠ []).
  { intros Hnil. apply Hdup. unfold filtered_df. rewrite Hnil. constructor. }
  rewrite (render_table_chart inp df w Hdf).
  fold statuses. fold filtered_df.
  unfold pivot. by rewrite bool_decide_eq_false_2.
Qed.

Lemma duplicate_rows_stop_render_after_chart_witness :
  ∃ w',
    script to_datetime_iso (server overlapping_response) unicode_14
      (sample_inputs "1609" id) 0 empty_world = (Raised ValueError, w') ∧
    ui w' =
      [ Title page_title;
        Subheader "Filter Statuses";
        Multiselect "Select statuses to display" ["Applied"] ["Applied"];
        Header "Exchange Trends Over Time";
        PlotlyChart dup_table "linear";
        Header "Funnel Conversion Rates" ].
Proof.
  assert (Hfetch :
    fetch_exchange_data to_datetime_iso (server overlapping_response) 0
      "token" "Outgoing"
      ["Global Volunteer"; "Global Talent"; "Global Teacher"]
      {| dyear := 2024; dmonth := 1; dday := 1 |}
      {| dyear := 2024; dmonth := 12; dday := 31 |} "month" (Some 1609)
      (shown (Title page_title) empty_world)
    = (Done dup_table,
       {| ui := [Title page_title]; requests := [sample_params];
          cache := [ (("token", "Outgoing",
                       ["Global Volunteer"; "Global Talent"; "Global Teacher"],
                       {| dyear := 2024; dmonth := 1; dday := 1 |},
                       {| dyear := 2024; dmonth := 12; dday := 31 |},
                       "month", Some 1609), (0, dup_table)) ] |}))
    by (vm_compute; reflexivity).
  eexists. split.
  - rewrite (script_fetch_then_render _ _ _ _ _ _ 1609);
      [|discriminate|vm_compute; reflexivity].
    unfold mbind at 1, M_bind at 1.
    change (fetch_exchange_data _ _ _ _ _ _ _ _ _ _ _) with
      (fetch_exchange_data to_datetime_iso (server overlapping_response) 0
         "token" "Outgoing"
         ["Global Volunteer"; "Global Talent"; "Global Teacher"]
         {| dyear := 2024; dmonth := 1; dday := 1 |}
         {| dyear := 2024; dmonth := 12; dday := 31 |} "month" (Some 1609)
         (shown (Title page_title) empty_world)).
    rewrite Hfetch.
    apply (duplicate_rows_stop_render_after_chart (sample_inputs "1609" id)
             dup_table).
    intros Hnodup. by apply (bool_decide_pack _) in Hnodup.
  - vm_compute. reflexivity.
Defined.

(** X17: the render of a fetched table completes when the table is not
    empty and its filtered rows hold integer counts, no two for one date
    and stage, whose magnitudes add up to at most 2^53. It then shows, in
    the main area and in this order, exactly: the selector heading and the
    status selector, offering the statuses of the table in order of first
    appearance, all preselected; the trend heading and the chart of the
    filtered rows; the funnel heading and the table of five steps; the
    metrics heading, the row of four columns and one metric in each. The
    three totals shown are the sums of the counts of the "Applied",
    "Approved" and "Realized" rows, and the rendering sends no request and
    leaves the cache as it was. *)
Theorem complete_render (inp : Inputs) (df : DataFrame) (p : PivotTable)
    (w : World) :
  let statuses := unique (status <$> df) in
  let filtered_df := filter_statuses (select_statuses inp statuses) df in
  df ≠ [] →
  pivot filtered_df = Ok p →
  exact_counts filtered_df →
  ∃ agg w',
    render_table inp df w = (Done agg, w') ∧
    pivot_df agg = p ∧
    funnel_table p = Ok (funnel_df agg) ∧
    length (funnel_df agg) = 5%nat ∧
    total_applied agg = stage_total "Applied" filtered_df ∧
    total_approved agg = stage_total "Approved" filtered_df ∧
    total_realized agg = stage_total "Realized" filtered_df ∧
    realization p = Ok (realization_rate agg) ∧
    requests w' = requests w ∧
    cache w' = cache w ∧
    ui w' = ui w ++
      [ Subheader "Filter Statuses";
        Multiselect "Select statuses to display" statuses statuses;
        Header "Exchange Trends Over Time";
        PlotlyChart filtered_df (line_shape inp);
        Header "Funnel Conversion Rates";
        Table (funnel_df agg);
        Header "Key Metrics";
        Columns 4;
        Metric 0 "Total Applied" (MInt (total_applied agg));
        Metric 1 "Total Approved" (MInt (total_approved agg));
        Metric 2 "Total Realized" (MInt (total_realized agg));
        Metric 3 "Realization Rate" (MRate (realization_rate agg)) ].
Proof.
  intros statuses filtered_df Hdf Hp Hexact.
  pose proof (proj1 Hexact) as Hcounts.
  pose proof (pivot_int_cells _ _ Hp Hcounts) as Hcells.
  destruct (funnel_loop_Ok p (seq 0 5) [] Hcells) as (steps & Hsteps & Hspec).
  { apply Forall_forall. intros i Hi%elem_of_seq. lia. }
  destruct (guarded_rate_Ok (stage_total "Realized" filtered_df)
              (stage_total "Applied" filtered_df)) as (rate & Hrate & _).
  assert (Hreal : realization p = Ok rate).
  { unfold realization.
    by rewrite !(column_total_stage_total filtered_df). }
  rewrite (render_table_chart inp df w Hdf).
  fold statuses. fold filtered_df.
  rewrite Hp. change (funnel_table p) with (funnel_loop p (seq 0 5) []).
  rewrite Hsteps.
  rewrite !(column_total_stage_total filtered_df) by done. rewrite Hreal.
  eexists _, _. split; [reflexivity|]. simpl.
  split_and!; try done.
  - apply Forall2_length in Hspec. by rewrite <-Hspec.
  - by rewrite <-!app_assoc.
Qed.

Lemma complete_render_witness :
  ∃ agg w',
    render_table (sample_inputs "1609" id)
      [ {| date := midnight_utc 2024 2 1; status := "Applied";
           count := JInt 5 |};
        {| date := midnight_utc 2024 1 1; status := "Applied";
           count := JInt 10 |};
        {| date := midnight_utc 2024 1 1; status := "Realized";
           count := JInt 4 |} ] empty_world = (Done agg, w') ∧
    total_applied agg = 15 ∧ total_approved agg = 0 ∧
    total_realized agg = 4 ∧
    length (ui w') = 12%nat ∧ requests w' = [].
Proof.
  set (df := [ {| date := midnight_utc 2024 2 1; status := "Applied";
                  count := JInt 5 |};
               {| date := midnight_utc 2024 1 1; status := "Applied";
                  count := JInt 10 |};
               {| date := midnight_utc 2024 1 1; status := "Realized";
                  count := JInt 4 |} ]).
  destruct (complete_render (sample_inputs "1609" id) df
              (list_to_map ((λ r, (pivot_key r, count r)) <$> df))
              empty_world)
    as (agg & w' & Hrun & _ & _ & _ & Ha & Hb & Hc & _ & Hreq' & _ & Hui).
  - discriminate.
  - reflexivity.
  - split; [repeat constructor; by eexists|by vm_compute].
  - exists agg, w'. split_and!; [exact Hrun|exact Ha|exact Hb|exact Hc| |].
    + by rewrite Hui.
    + by rewrite Hreq'.
Defined.

(** ** Statuses other than 200 *)

(** X18: the fetch accepts the status 200 and no other: any other status,
    the other 2xx ones included, is reported as a failure. When such a
    fetch goes to the network, it shows the error line with the status,
    then the decoded body and stops, or raises the decoding error for a
    body that is not JSON; it returns no table and stores nothing. *)
Theorem only_status_200_accepted (to_datetime : json → res Timestamp)
    (http_get : Z → gmap string pval → Response) (now : Z)
    (token exchange_type : string) (programmes : list string)
    (start_date end_date : Date) (interval : string) (office_id : option Z)
    (w : World) (params : gmap string pval) :
  cache_lookup 3600
    (token, exchange_type, programmes, start_date, end_date, interval,
     office_id) now w = None →
  build_params token exchange_type programmes start_date end_date
    interval office_id = Ok params →
  status_code (http_get now params) ≠ 200 →
  ∃ o w',
    fetch_exchange_data to_datetime http_get now token exchange_type
      programmes start_date end_date interval office_id w = (o, w') ∧
    (∀ df, o ≠ Done df) ∧
    cache w' = cache w ∧
    requests w' = requests w ++ [params] ∧
    match body (http_get now params) with
    | JsonBody j =>
        o = Stopped ∧
        ui w' = ui w ++
          [ Error ("API request failed with status code "
                   +:+ pretty (status_code (http_get now params)));
            JsonView j ]
    | TextBody _ =>
        o = Raised JSONDecodeError ∧
        ui w' = ui w ++
          [ Error ("API request failed with status code "
                   +:+ pretty (status_code (http_get now params))) ]
    end.
Proof.
  intros Hcache Hparams Hstatus.
  unfold fetch_exchange_data, cache_data. rewrite Hcache.
  rewrite (fetch_body_not_200 _ _ _ _ _ _ _ _ _ _ _ _ Hparams Hstatus).
  simpl. destruct (body (http_get now params)) as [j|s]; simpl.
  - eexists _, _. split; [reflexivity|]. split_and!; try done.
    simpl. by rewrite <-app_assoc.
  - eexists _, _. split; [reflexivity|]. split_and!; done.
Qed.

Lemma only_status_200_accepted_witness :
  ∃ w',
    fetch_exchange_data to_datetime_iso
      (server {| status_code := 204; body := JsonBody JNull |}) 0
      "token" "Outgoing"
      ["Global Volunteer"; "Global Talent"; "Global Teacher"]
      {| dyear := 2024; dmonth := 1; dday := 1 |}
      {| dyear := 2024; dmonth := 12; dday := 31 |} "month" (Some 1609)
      empty_world = (Stopped, w') ∧
    ui w' = [ Error "API request failed with status code 204";
              JsonView JNull ].
Proof.
  destruct (only_status_200_accepted to_datetime_iso
              (server {| status_code := 204; body := JsonBody JNull |}) 0
              "token" "Outgoing"
              ["Global Volunteer"; "Global Talent"; "Global Teacher"]
              {| dyear := 2024; dmonth := 1; dday := 1 |}
              {| dyear := 2024; dmonth := 12; dday := 31 |} "month"
              (Some 1609) empty_world sample_params)
    as (o & w' & Hfetch & _ & _ & _ & -> & Hui);
    [reflexivity|reflexivity|discriminate|].
  exists w'. split; [exact Hfetch|exact Hui].
Defined.
